(** * backend/search_tools.py: the course search tool and the tool manager

    A shallow embedding of [CourseSearchTool] and [ToolManager].  Python
    objects that are mutated in place (the tool's [last_sources] attribute,
    the tools held by a manager) are modelled by explicit state passing:
    an operation takes the object and returns the object it has become.
    Dictionaries with a fixed, known set of keys are records whose fields
    are [option]s ([None]: the key is absent or holds Python's [None]);
    the set of seen source keys is a [gset], the per-call metadata cache a
    [gmap], and the manager's insertion-ordered [tools] dictionary an
    association list.  Values have the types the tool schema and the
    catalog give them: titles, links and texts are strings, lesson numbers
    are integers, a parsed lesson list is a list of lesson objects.  Calls
    that may raise ([course_catalog.get], [json.loads], [register_tool])
    return an [exc]; [search] is taken to return its [SearchResults]. *)

From stdpp Require Import base strings list gmap pretty.

Local Open Scope Z_scope.

(** ** Python helpers *)

(** The one-character string ["\n"]. *)
Definition newline : string := String (Ascii.ascii_of_nat 10) EmptyString.

(** [sep.join(parts)]. *)
Fixpoint join (sep : string) (parts : list string) : string :=
  match parts with
  | [] => ""
  | [p] => p
  | p :: rest => p +:+ sep +:+ join sep rest
  end.

(** Truth value of an [Optional[str]]: [None] and [""] are falsy. *)
Definition str_truthy (s : option string) : bool :=
  match s with
  | Some (String _ _) => true
  | _ => false
  end.

(** Truth value of an [Optional[int]]: [None] and [0] are falsy. *)
Definition int_truthy (n : option Z) : bool :=
  match n with
  | Some 0 | None => false
  | Some _ => true
  end.

(** The outcome of a Python call that may raise. *)
Inductive exc (A : Type) : Type :=
| Returned (a : A)
| Raised (what : string).
Arguments Returned {A} a.
Arguments Raised {A} what.

Definition exc_bind {A B : Type} (c : exc A) (k : A → exc B) : exc B :=
  match c with
  | Returned a => k a
  | Raised e => Raised e
  end.

Notation "x ← c ;;; k" := (exc_bind c (λ x, k))
  (at level 20, c at level 100, k at level 200, right associativity,
   only parsing).

(** ** Data *)

(** The metadata mapping of one hit; the code reads the keys
    ['course_title'] (a string; [None]: the key is absent) and
    ['lesson_number'] (an integer; [None]: the key is absent or holds
    Python's [None]) only. *)
Record HitMeta := {
  meta_course_title : option string;
  meta_lesson_number : option Z
}.

(** Modelled from the spec: the [SearchResults] class lives in
    [vector_store], which is not part of these sources.  The spec gives it
    an ordered sequence of documents, a parallel sequence of metadata
    mappings and an optional error message. *)
Record SearchResults := {
  documents : list string;
  metadata : list HitMeta;
  error : option string
}.

(** Modelled from the spec: the emptiness check that [SearchResults]
    exposes; a result set is empty when it holds no document. *)
Definition is_empty (results : SearchResults) : bool :=
  match documents results with
  | [] => true
  | _ :: _ => false
  end.

(** One object of the parsed lesson list. *)
Record Lesson := {
  les_lesson_number : option Z;
  les_lesson_title : option string;
  les_lesson_link : option string
}.

(** One metadata mapping of the course catalog.  [cm_other_keys] lists the
    keys the code never reads (they matter for the truth value of the
    dictionary only). *)
Record CourseMeta := {
  cm_course_link : option string;
  cm_instructor : option string;
  cm_lessons_json : option string;
  cm_lessons : option (list Lesson);
  cm_other_keys : list string
}.

(** The dictionary [{}]. *)
Definition empty_meta : CourseMeta :=
  {| cm_course_link := None; cm_instructor := None; cm_lessons_json := None;
     cm_lessons := None; cm_other_keys := [] |}.

Definition empty_lesson : Lesson :=
  {| les_lesson_number := None; les_lesson_title := None;
     les_lesson_link := None |}.

(** Truth value of a dictionary: it has at least one key. *)
Definition meta_truthy (m : CourseMeta) : bool :=
  match cm_course_link m, cm_instructor m, cm_lessons_json m, cm_lessons m,
        cm_other_keys m with
  | None, None, None, None, [] => false
  | _, _, _, _, _ => true
  end.

Definition lesson_truthy (l : Lesson) : bool :=
  match les_lesson_number l, les_lesson_title l, les_lesson_link l with
  | None, None, None => false
  | _, _, _ => true
  end.

(** metadata['lessons'] = v *)
Definition set_lessons (m : CourseMeta) (v : list Lesson) : CourseMeta :=
  {| cm_course_link := cm_course_link m; cm_instructor := cm_instructor m;
     cm_lessons_json := cm_lessons_json m; cm_lessons := Some v;
     cm_other_keys := cm_other_keys m |}.

(** The rich source dictionary built for the UI. *)
Record Source := {
  course_title : string;
  course_link : option string;
  instructor : option string;
  lesson_number : option Z;
  lesson_title : option string;
  lesson_link : option string
}.

(** The vector store as the tool uses it: the unified search, and
    [course_catalog.get(ids=[title])], which may raise and otherwise
    returns the list under ['metadatas'] ([None] when the reply is falsy
    or has no such key; an entry of the list may itself be [None]). *)
Record VectorStore := {
  search : string → option string → option Z → SearchResults;
  course_catalog_get : string → exc (option (list (option CourseMeta)))
}.

Record CourseSearchTool := {
  store : VectorStore;
  last_sources : list Source
}.

Definition set_last_sources (self : CourseSearchTool) (v : list Source)
  : CourseSearchTool :=
  {| store := store self; last_sources := v |}.

(** self.last_sources = [] on construction. *)
Definition new_CourseSearchTool (vector_store : VectorStore) : CourseSearchTool :=
  {| store := vector_store; last_sources := [] |}.

(** ** CourseSearchTool *)

Section CourseSearchTool.

(** [json.loads] restricted to lesson lists: it raises on text that does
    not parse. *)
Variable json_loads : string → exc (list Lesson).

(** The body of the [try] block of [_get_course_metadata]: it returns the
    metadata, falls through ([Returned None]) or raises. *)
Definition _get_course_metadata_try (self : CourseSearchTool)
    (title : string) : exc (option CourseMeta) :=
  results ← course_catalog_get (store self) title ;;;
  match results with
  | Some (entry :: _) =>
      match entry with
      | None => Raised "TypeError"
      | Some metadata =>
          match cm_lessons_json metadata with
          | Some text =>
              parsed ← json_loads text ;;;
              Returned (Some (set_lessons metadata parsed))
          | None => Returned (Some metadata)
          end
      end
  | Some [] | None => Returned None
  end.

(** The [except Exception] clause prints and falls through to
    [return {}]. *)
Definition _get_course_metadata (self : CourseSearchTool) (title : string)
  : CourseMeta :=
  match _get_course_metadata_try self title with
  | Returned (Some metadata) => metadata
  | Returned None | Raised _ => empty_meta
  end.

(** The [for] loop of [_get_lesson_info]; [{}] when no lesson matches. *)
Fixpoint find_lesson (lessons : list Lesson) (n : Z) : Lesson :=
  match lessons with
  | [] => empty_lesson
  | lesson :: rest =>
      if decide (les_lesson_number lesson = Some n) then lesson
      else find_lesson rest n
  end.

Definition _get_lesson_info (course_meta : CourseMeta) (n : Z) : Lesson :=
  find_lesson (default [] (cm_lessons course_meta)) n.

(** The local variables of the loop of [_format_results]. *)
Record Loop := {
  formatted : list string;
  sources : list Source;
  seen_sources : gset (string * option Z);
  course_metadata_cache : gmap string CourseMeta
}.

Definition loop_start : Loop :=
  {| formatted := []; sources := []; seen_sources := ∅;
     course_metadata_cache := ∅ |}.

(** meta.get('course_title', 'unknown') *)
Definition hit_title (meta : HitMeta) : string :=
  default "unknown" (meta_course_title meta).

(** The context header: the title, the lesson part when the lesson
    number is not [None], the closing bracket. *)
Definition hit_header (meta : HitMeta) : string :=
  "[" +:+ hit_title meta +:+
  match meta_lesson_number meta with
  | Some n => " - Lesson " +:+ pretty n
  | None => ""
  end +:+ "]".

(** source_key = (course_title, lesson_num) *)
Definition source_key (meta : HitMeta) : string * option Z :=
  (hit_title meta, meta_lesson_number meta).

(** source_info["lesson_title"] = ...; source_info["lesson_link"] = ... *)
Definition set_lesson_fields (s : Source) (lesson_info : Lesson) : Source :=
  {| course_title := course_title s; course_link := course_link s;
     instructor := instructor s; lesson_number := lesson_number s;
     lesson_title := les_lesson_title lesson_info;
     lesson_link := les_lesson_link lesson_info |}.

(** The [source_info] dictionary as it is appended to [sources]. *)
Definition source_info (course_meta : CourseMeta) (title : string)
    (lesson_num : option Z) : Source :=
  let info :=
    {| course_title := title;
       course_link :=
         if meta_truthy course_meta then cm_course_link course_meta else None;
       instructor :=
         if meta_truthy course_meta then cm_instructor course_meta else None;
       lesson_number := lesson_num;
       lesson_title := None;
       lesson_link := None |} in
  match lesson_num with
  | Some n =>
      if meta_truthy course_meta then
        let lesson_info := _get_lesson_info course_meta n in
        if lesson_truthy lesson_info then set_lesson_fields info lesson_info
        else info
      else info
  | None => info
  end.

(** One iteration of the loop over [zip(documents, metadata)]. *)
Definition loop_body (self : CourseSearchTool) (st : Loop)
    (hit : string * HitMeta) : Loop :=
  let doc := hit.1 in
  let meta := hit.2 in
  let title := hit_title meta in
  let lesson_num := meta_lesson_number meta in
  let header := hit_header meta in
  let key := (title, lesson_num) in
  let block := header +:+ newline +:+ doc in
  if decide (key ∈ seen_sources st) then
    {| formatted := formatted st ++ [block];
       sources := sources st;
       seen_sources := seen_sources st;
       course_metadata_cache := course_metadata_cache st |}
  else
    let cache :=
      match course_metadata_cache st !! title with
      | Some _ => course_metadata_cache st
      | None =>
          <[title := _get_course_metadata self title]>
            (course_metadata_cache st)
      end in
    let course_meta := default empty_meta (cache !! title) in
    {| formatted := formatted st ++ [block];
       sources := sources st ++ [source_info course_meta title lesson_num];
       seen_sources := {[key]} ∪ seen_sources st;
       course_metadata_cache := cache |}.

Definition run_loop (self : CourseSearchTool)
    (hits : list (string * HitMeta)) : Loop :=
  foldl (loop_body self) loop_start hits.

Definition _format_results (self : CourseSearchTool)
    (results : SearchResults) : string * CourseSearchTool :=
  let st := run_loop self (zip (documents results) (metadata results)) in
  (join (newline +:+ newline) (formatted st),
   set_last_sources self (sources st)).

Definition execute (self : CourseSearchTool) (query : string)
    (course_name : option string) (lesson_num : option Z)
  : string * CourseSearchTool :=
  let results := search (store self) query course_name lesson_num in
  if str_truthy (error results) then (default "" (error results), self)
  else if is_empty results then
    let filter_info := "" in
    let filter_info :=
      if str_truthy course_name
      then filter_info +:+ " in course '" +:+ default "" course_name +:+ "'"
      else filter_info in
    let filter_info :=
      match lesson_num with
      | Some n =>
          if int_truthy lesson_num
          then filter_info +:+ " in lesson " +:+ pretty n
          else filter_info
      | None => filter_info
      end in
    ("No relevant content found" +:+ filter_info +:+ ".", self)
  else _format_results self results.

End CourseSearchTool.

(** ** The tool interface and ToolManager *)

(** The dictionary returned by [get_tool_definition]; [name] is what
    [tool_def.get("name")] gives.  A property is listed with its JSON
    type. *)
Record ToolDefinition := {
  name : option string;
  description : string;
  properties : list (string * string);
  required : list string
}.

(** The keyword arguments a tool is executed with. *)
Record Kwargs := {
  kw_query : string;
  kw_course_name : option string;
  kw_lesson_number : option Z
}.

(** Any other implementation of the abstract class [Tool];
    [plain_last_sources] is [None] when the object has no [last_sources]
    attribute. *)
Record PlainTool := {
  plain_definition : ToolDefinition;
  plain_execute : Kwargs → string;
  plain_last_sources : option (list Source)
}.

Inductive Tool :=
| SearchTool (t : CourseSearchTool)
| OtherTool (t : PlainTool).

Definition search_tool_definition : ToolDefinition :=
  {| name := Some "search_course_content";
     description :=
       "Search course materials with smart course name matching and lesson filtering";
     properties :=
       [("query", "string"); ("course_name", "string");
        ("lesson_number", "integer")];
     required := ["query"] |}.

Definition get_tool_definition (tool : Tool) : ToolDefinition :=
  match tool with
  | SearchTool _ => search_tool_definition
  | OtherTool t => plain_definition t
  end.

(** [tool.last_sources], when [hasattr(tool, 'last_sources')]. *)
Definition tool_last_sources (tool : Tool) : option (list Source) :=
  match tool with
  | SearchTool t => Some (last_sources t)
  | OtherTool t => plain_last_sources t
  end.

(** tool.last_sources = [] *)
Definition clear_last_sources (tool : Tool) : Tool :=
  match tool with
  | SearchTool t => SearchTool (set_last_sources t [])
  | OtherTool t =>
      OtherTool {| plain_definition := plain_definition t;
                   plain_execute := plain_execute t;
                   plain_last_sources := (λ _, []) <$> plain_last_sources t |}
  end.

(** An insertion-ordered dictionary with string keys. *)
Fixpoint dict_get {V : Type} (k : string) (d : list (string * V)) : option V :=
  match d with
  | [] => None
  | (k', v) :: rest => if decide (k' = k) then Some v else dict_get k rest
  end.

(** d[k] = v: an existing key keeps its position. *)
Fixpoint dict_set {V : Type} (k : string) (v : V) (d : list (string * V))
  : list (string * V) :=
  match d with
  | [] => [(k, v)]
  | (k', v') :: rest =>
      if decide (k' = k) then (k, v) :: rest
      else (k', v') :: dict_set k v rest
  end.

Record ToolManager := { tools : list (string * Tool) }.

Definition new_ToolManager : ToolManager := {| tools := [] |}.

Definition register_tool (self : ToolManager) (tool : Tool) : exc ToolManager :=
  let tool_def := get_tool_definition tool in
  let tool_name := name tool_def in
  if negb (str_truthy tool_name)
  then Raised "Tool must have a 'name' in its definition"
  else Returned {| tools := dict_set (default "" tool_name) tool (tools self) |}.

Definition get_tool_definitions (self : ToolManager) : list ToolDefinition :=
  (λ entry, get_tool_definition entry.2) <$> tools self.

Fixpoint first_last_sources (values : list Tool) : list Source :=
  match values with
  | [] => []
  | tool :: rest =>
      match tool_last_sources tool with
      | Some (s :: l) => s :: l
      | Some [] | None => first_last_sources rest
      end
  end.

Definition get_last_sources (self : ToolManager) : list Source :=
  first_last_sources (tools self).*2.

Definition reset_sources (self : ToolManager) : ToolManager :=
  {| tools := (λ entry, (entry.1, clear_last_sources entry.2)) <$> tools self |}.

Section ToolManager.

Variable json_loads : string → exc (list Lesson).

(** [tool.execute] on the keyword arguments: the text, and the tool
    object afterwards.  The manager holds the tool object itself, so
    what a call does to the tool is what the manager sees. *)
Definition tool_execute (tool : Tool) (kwargs : Kwargs) : string * Tool :=
  match tool with
  | SearchTool t =>
      let r := execute json_loads t (kw_query kwargs) (kw_course_name kwargs)
                 (kw_lesson_number kwargs) in
      (r.1, SearchTool r.2)
  | OtherTool t => (plain_execute t kwargs, OtherTool t)
  end.

Definition execute_tool (self : ToolManager) (tool_name : string)
    (kwargs : Kwargs) : string * ToolManager :=
  match dict_get tool_name (tools self) with
  | None => ("Tool '" +:+ tool_name +:+ "' not found", self)
  | Some tool =>
      let r := tool_execute tool kwargs in
      (r.1, {| tools := dict_set tool_name r.2 (tools self) |})
  end.

End ToolManager.

(** ** Specification vocabulary *)

(** The text block of one hit: header, newline, raw document text. *)
Definition hit_block (hit : string * HitMeta) : string :=
  hit_header hit.2 +:+ newline +:+ hit.1.

(** The header of a hit as the specification words it. *)
Definition spec_header (meta : HitMeta) : string :=
  let title :=
    match meta_course_title meta with
    | Some t => t
    | None => "unknown"
    end in
  match meta_lesson_number meta with
  | None => "[" +:+ title +:+ "]"
  | Some n => "[" +:+ title +:+ " - Lesson " +:+ pretty n +:+ "]"
  end.

(** The deduplication key of a source record. *)
Definition src_key (s : Source) : string * option Z :=
  (course_title s, lesson_number s).

(** A source record whose four optional catalog fields are null. *)
Definition bare_source (meta : HitMeta) : Source :=
  {| course_title := hit_title meta; course_link := None; instructor := None;
     lesson_number := meta_lesson_number meta; lesson_title := None;
     lesson_link := None |}.

(** [hits !! i] is the first hit of the result set that bears its key. *)
Definition first_with_key (hits : list (string * HitMeta)) (i : nat)
    (meta : HitMeta) : Prop :=
  (∃ doc, hits !! i = Some (doc, meta)) ∧
  ∀ j hit, (j < i)%nat → hits !! j = Some hit →
           source_key hit.2 ≠ source_key meta.

(** The first [min (length documents) (length metadata)] pairs. *)
Definition paired_prefix (results : SearchResults) : list (string * HitMeta) :=
  let k := (length (documents results) `min` length (metadata results))%nat in
  zip (take k (documents results)) (take k (metadata results)).

(** No tool of the dictionary other than the one under [key] has a
    [last_sources] attribute. *)
Definition only_cache (key : string) (d : list (string * Tool)) : Prop :=
  ∀ k tool, (k, tool) ∈ d → k ≠ key → tool_last_sources tool = None.

Section Vocabulary.

Variable json_loads : string → exc (list Lesson).

(** The source record the code builds for a hit that opens a new key. *)
Definition source_of (self : CourseSearchTool) (meta : HitMeta) : Source :=
  source_info (_get_course_metadata json_loads self (hit_title meta))
    (hit_title meta) (meta_lesson_number meta).

(** The loop's source list with the metadata cache taken out: a hit whose
    key is in [seen] adds nothing. *)
Fixpoint dedup_sources (self : CourseSearchTool)
    (seen : gset (string * option Z)) (metas : list HitMeta) : list Source :=
  match metas with
  | [] => []
  | meta :: rest =>
      if decide (source_key meta ∈ seen) then dedup_sources self seen rest
      else source_of self meta
             :: dedup_sources self ({[source_key meta]} ∪ seen) rest
  end.

(** Every entry of the per-call cache is what the catalog lookup of its
    title gives. *)
Definition cache_ok (self : CourseSearchTool)
    (cache : gmap string CourseMeta) : Prop :=
  ∀ title m, cache !! title = Some m →
             m = _get_course_metadata json_loads self title.

(** The ways the catalog lookup of a title fails: the catalog raises, the
    title is not found, the entry found is not a mapping, or the stored
    lesson list does not parse. *)
Inductive lookup_fails (self : CourseSearchTool) (title : string) : Prop :=
| catalog_raised what :
    course_catalog_get (store self) title = Raised what →
    lookup_fails self title
| title_not_found :
    course_catalog_get (store self) title = Returned None ∨
    course_catalog_get (store self) title = Returned (Some []) →
    lookup_fails self title
| entry_not_a_mapping others :
    course_catalog_get (store self) title = Returned (Some (None :: others)) →
    lookup_fails self title
| lessons_unparsable metadata others text what :
    course_catalog_get (store self) title
      = Returned (Some (Some metadata :: others)) →
    cm_lessons_json metadata = Some text →
    json_loads text = Raised what →
    lookup_fails self title.

End Vocabulary.

(** ** A small store used in the examples *)

Definition dquote : string := String (Ascii.ascii_of_nat 34) EmptyString.

(** The text [[{"lesson_number": 1, "lesson_title": "Why MCP"}]]. *)
Definition mcp_lessons_json : string :=
  "[{" +:+ dquote +:+ "lesson_number" +:+ dquote +:+ ": 1, " +:+
  dquote +:+ "lesson_title" +:+ dquote +:+ ": " +:+
  dquote +:+ "Why MCP" +:+ dquote +:+ "}]".

(** A stand-in for [json.loads] that knows two texts and raises on every
    other one. *)
Definition demo_json_loads (text : string) : exc (list Lesson) :=
  if decide (text = mcp_lessons_json) then
    Returned [ {| les_lesson_number := Some 1;
                  les_lesson_title := Some "Why MCP";
                  les_lesson_link := None |} ]
  else if decide (text = "[]") then Returned []
  else Raised "JSONDecodeError".

Definition mcp_title : string := "MCP: Build Rich-Context AI Apps".

Definition mcp_hit (n : Z) : HitMeta :=
  {| meta_course_title := Some mcp_title; meta_lesson_number := Some n |}.

Definition no_hits (err : option string) : SearchResults :=
  {| documents := []; metadata := []; error := err |}.

Definition demo_search (query : string) (course_name : option string)
    (lesson_num : option Z) : SearchResults :=
  if decide (query = "What is MCP?") then
    {| documents := ["MCP is a protocol."; "Servers expose tools.";
                     "Clients call them."];
       metadata := [mcp_hit 1; mcp_hit 2; mcp_hit 1];
       error := None |}
  else if decide (query = "broken catalog") then
    {| documents := ["First chunk."; "Second chunk."];
       metadata :=
         [ {| meta_course_title := Some "Broken"; meta_lesson_number := Some 3 |};
           {| meta_course_title := None; meta_lesson_number := None |} ];
       error := None |}
  else if decide (query = "ragged") then
    {| documents := ["Kept."; "Dropped."];
       metadata := [mcp_hit 0];
       error := None |}
  else if decide (query = "timeout") then no_hits (Some "connection timeout")
  else if decide (query = "blank error") then no_hits (Some "")
  else no_hits None.

Definition demo_catalog (title : string)
  : exc (option (list (option CourseMeta))) :=
  if decide (title = mcp_title) then
    Returned (Some [ Some {| cm_course_link := Some "https://example.com/mcp";
                             cm_instructor := Some "Elie";
                             cm_lessons_json := Some mcp_lessons_json;
                             cm_lessons := None;
                             cm_other_keys := ["title"; "lesson_count"] |} ])
  else if decide (title = "Broken") then
    Returned (Some [ Some {| cm_course_link := Some "https://example.com/b";
                             cm_instructor := None;
                             cm_lessons_json := Some "[{";
                             cm_lessons := None;
                             cm_other_keys := ["title"] |} ])
  else if decide (title = "Down") then Raised "catalog unavailable"
  else Returned (Some []).

Definition demo_store : VectorStore :=
  {| search := demo_search; course_catalog_get := demo_catalog |}.

Definition demo_tool : CourseSearchTool := new_CourseSearchTool demo_store.

(** A tool whose cache still holds the sources of an earlier search. *)
Definition stale_source : Source :=
  {| course_title := "Earlier course"; course_link := None;
     instructor := None; lesson_number := Some 7; lesson_title := None;
     lesson_link := None |}.

Definition stale_tool : CourseSearchTool :=
  {| store := demo_store; last_sources := [stale_source] |}.

(** A tool without a [last_sources] attribute. *)
Definition outline_tool : Tool :=
  OtherTool {| plain_definition :=
                 {| name := Some "get_course_outline";
                    description := "Outline of a course";
                    properties := [("course_name", "string")];
                    required := ["course_name"] |};
               plain_execute := λ _, "outline";
               plain_last_sources := None |}.

Definition demo_manager (t : CourseSearchTool) : ToolManager :=
  {| tools := [("get_course_outline", outline_tool);
               ("search_course_content", SearchTool t)] |}.

Definition demo_kwargs (query : string) : Kwargs :=
  {| kw_query := query; kw_course_name := None; kw_lesson_number := None |}.

(** ** The catalog lookups of one call *)

Section Lookups.

Variable json_loads : string → exc (list Lesson).

(** The titles [_get_course_metadata] is called with in one iteration of
    the loop: the call sits under [if source_key not in seen_sources] and
    [if course_title not in course_metadata_cache]. *)
Definition loop_body_lookups (st : Loop) (hit : string * HitMeta)
  : list string :=
  if decide (source_key hit.2 ∈ seen_sources st) then []
  else
    match course_metadata_cache st !! hit_title hit.2 with
    | Some _ => []
    | None => [hit_title hit.2]
    end.

(** The calls of [_get_course_metadata] made by the loop, in order, from
    the loop state [st] on. *)
Fixpoint lookups_from (self : CourseSearchTool) (st : Loop)
    (hits : list (string * HitMeta)) : list string :=
  match hits with
  | [] => []
  | hit :: rest =>
      loop_body_lookups st hit
      ++ lookups_from self (loop_body json_loads self st hit) rest
  end.

Definition catalog_lookups (self : CourseSearchTool)
    (hits : list (string * HitMeta)) : list string :=
  lookups_from self loop_start hits.

(** The per-call cache holds a title exactly when a key with that title
    has been seen. *)
Definition cache_tracks_seen (st : Loop) : Prop :=
  ∀ title, is_Some (course_metadata_cache st !! title)
           ↔ ∃ lesson_num, (title, lesson_num) ∈ seen_sources st.

End Lookups.

(** ** More examples *)

(** A store whose search returns a document without any metadata. *)
Definition orphan_store : VectorStore :=
  {| search := λ _ _ _,
       {| documents := ["Orphan."]; metadata := []; error := None |};
     course_catalog_get := demo_catalog |}.

Definition orphan_tool : CourseSearchTool :=
  {| store := orphan_store; last_sources := [stale_source] |}.

(** A store whose search returns a metadata mapping without any
    document, and a tool on it that still holds an earlier source. *)
Definition lonely_store : VectorStore :=
  {| search := λ _ _ _,
       {| documents := []; metadata := [mcp_hit 1]; error := None |};
     course_catalog_get := demo_catalog |}.

Definition lonely_tool : CourseSearchTool :=
  {| store := lonely_store; last_sources := [stale_source] |}.

(** A tool with a [last_sources] attribute of its own. *)
Definition notes_tool (cache : list Source) : Tool :=
  OtherTool {| plain_definition :=
                 {| name := Some "search_notes";
                    description := "Search the notes";
                    properties := [("query", "string")];
                    required := ["query"] |};
               plain_execute := λ _, "notes";
               plain_last_sources := Some cache |}.

(** A tool whose definition has no name. *)
Definition nameless_tool : Tool :=
  OtherTool {| plain_definition :=
                 {| name := None; description := "No name";
                    properties := []; required := [] |};
               plain_execute := λ _, "";
               plain_last_sources := None |}.

Definition mcp_source : Source :=
  {| course_title := mcp_title; course_link := None; instructor := None;
     lesson_number := Some 2; lesson_title := None; lesson_link := None |}.

Definition three_tools : ToolManager :=
  {| tools := [("get_course_outline", outline_tool);
               ("search_notes", notes_tool []);
               ("search_course_content", SearchTool stale_tool)] |}.

Definition demo_lessons : list Lesson :=
  [ {| les_lesson_number := Some 0; les_lesson_title := Some "Welcome";
       les_lesson_link := Some "https://example.com/0" |};
    {| les_lesson_number := Some 1; les_lesson_title := Some "First";
       les_lesson_link := None |};
    {| les_lesson_number := Some 1; les_lesson_title := Some "Again";
       les_lesson_link := None |} ].

Definition demo_meta : CourseMeta :=
  {| cm_course_link := Some "https://example.com/c"; cm_instructor := None;
     cm_lessons_json := None; cm_lessons := Some demo_lessons;
     cm_other_keys := [] |}.

(** The example manager after the notes tool has been registered too. *)
Definition demo_manager_with_notes (t : CourseSearchTool) : ToolManager :=
  {| tools := [("get_course_outline", outline_tool);
               ("search_course_content", SearchTool t);
               ("search_notes", notes_tool [])] |}.

(** The catalog mapping of the MCP course, as [demo_catalog] returns it. *)
Definition mcp_entry : CourseMeta :=
  {| cm_course_link := Some "https://example.com/mcp";
     cm_instructor := Some "Elie";
     cm_lessons_json := Some mcp_lessons_json;
     cm_lessons := None;
     cm_other_keys := ["title"; "lesson_count"] |}.

Definition two_chunks (first second : string) : SearchResults :=
  {| documents := [first; second];
     metadata := [mcp_hit 1; mcp_hit 1];
     error := None |}.

(** ** Properties *)

Section Properties.

Variable json_loads : string → exc (list Lesson).

Local Abbreviation execute := (execute json_loads).
Local Abbreviation _format_results := (_format_results json_loads).
Local Abbreviation run_loop := (run_loop json_loads).
Local Abbreviation loop_body := (loop_body json_loads).
Local Abbreviation source_of := (source_of json_loads).
Local Abbreviation dedup_sources := (dedup_sources json_loads).
Local Abbreviation cache_ok := (cache_ok json_loads).
Local Abbreviation lookup_fails := (lookup_fails json_loads).
Local Abbreviation sep := (newline +:+ newline).

(** *** The three paths of [execute] *)

Lemma execute_error self query course_name lesson_num :
  str_truthy (error (search (store self) query course_name lesson_num)) = true →
  execute self query course_name lesson_num
  = (default "" (error (search (store self) query course_name lesson_num)),
     self).
Proof. intros H. unfold execute. by rewrite H. Qed.

Lemma execute_format self query course_name lesson_num :
  str_truthy (error (search (store self) query course_name lesson_num)) = false →
  is_empty (search (store self) query course_name lesson_num) = false →
  execute self query course_name lesson_num
  = _format_results self (search (store self) query course_name lesson_num).
Proof. intros H1 H2. unfold execute. by rewrite H1, H2. Qed.

Lemma execute_empty_unchanged self query course_name lesson_num :
  str_truthy (error (search (store self) query course_name lesson_num)) = false →
  is_empty (search (store self) query course_name lesson_num) = true →
  (execute self query course_name lesson_num).2 = self.
Proof. intros H1 H2. unfold execute. by rewrite H1, H2. Qed.

(** *** The loop of [_format_results] *)

Lemma foldl_formatted self hits st :
  formatted (foldl (loop_body self) st hits)
  = formatted st ++ (hit_block <$> hits).
Proof.
  revert st. induction hits as [|hit hits IH]; intros st; simpl.
  - by rewrite app_nil_r.
  - rewrite IH. unfold loop_body.
    case_decide; simpl; by rewrite <- app_assoc.
Qed.

Lemma cache_ok_empty self : cache_ok self ∅.
Proof. intros title m H. by rewrite lookup_empty in H. Qed.

Lemma cache_ok_step self st hit :
  cache_ok self (course_metadata_cache st) →
  cache_ok self (course_metadata_cache (loop_body self st hit)).
Proof.
  intros Hok. unfold loop_body.
  case_decide; simpl; [done|].
  destruct (course_metadata_cache st !! hit_title hit.2) eqn:E; [done|].
  intros title m. rewrite lookup_insert. case_decide.
  - intros [= <-]. by subst.
  - apply Hok.
Qed.

Lemma foldl_sources self hits st :
  cache_ok self (course_metadata_cache st) →
  sources (foldl (loop_body self) st hits)
  = sources st ++ dedup_sources self (seen_sources st) hits.*2.
Proof.
  revert st. induction hits as [|hit hits IH]; intros st Hok; simpl.
  - by rewrite app_nil_r.
  - rewrite IH by by apply cache_ok_step.
    unfold loop_body, source_key.
    case_decide; simpl; [done|].
    rewrite <- app_assoc. simpl. do 2 f_equal.
    unfold source_of.
    destruct (course_metadata_cache st !! hit_title hit.2) as [m|] eqn:E.
    + rewrite E. simpl. by rewrite (Hok _ _ E).
    + by rewrite lookup_insert_eq.
Qed.

Lemma run_loop_formatted self hits :
  formatted (run_loop self hits) = hit_block <$> hits.
Proof. unfold run_loop. by rewrite foldl_formatted. Qed.

Lemma run_loop_sources self hits :
  sources (run_loop self hits) = dedup_sources self ∅ hits.*2.
Proof.
  unfold run_loop. rewrite foldl_sources; [done|].
  apply cache_ok_empty.
Qed.

(** *** Deduplication *)

Lemma src_key_source_info course_meta title lesson_num :
  src_key (source_info course_meta title lesson_num) = (title, lesson_num).
Proof.
  unfold source_info, src_key.
  destruct lesson_num; [|done].
  destruct (meta_truthy course_meta); [|done].
  by destruct (lesson_truthy _).
Qed.

Lemma src_key_source_of self meta :
  src_key (source_of self meta) = source_key meta.
Proof. apply src_key_source_info. Qed.

Lemma dedup_keys self metas seen k :
  k ∈ src_key <$> dedup_sources self seen metas
  ↔ k ∈ source_key <$> metas ∧ k ∉ seen.
Proof.
  revert seen. induction metas as [|meta metas IH]; intros seen; simpl.
  - rewrite elem_of_nil. tauto.
  - case_decide as Hin; rewrite ?fmap_cons, !elem_of_cons, IH.
    + split; [tauto|]. intros [[->|?] ?]; tauto.
    + rewrite src_key_source_of, not_elem_of_union, elem_of_singleton.
      destruct (decide (k = source_key meta)) as [->|]; tauto.
Qed.

Lemma dedup_keys_NoDup self metas seen :
  NoDup (src_key <$> dedup_sources self seen metas).
Proof.
  revert seen. induction metas as [|meta metas IH]; intros seen; simpl.
  - constructor.
  - case_decide; [done|]. rewrite fmap_cons. constructor; [|done].
    rewrite dedup_keys, src_key_source_of. intros [_ Hnew]. apply Hnew.
    apply elem_of_union_l. by apply elem_of_singleton.
Qed.

Lemma dedup_from_first self metas seen s :
  s ∈ dedup_sources self seen metas →
  ∃ i meta, metas !! i = Some meta ∧ (source_key meta ∉ seen) ∧
    (∀ j m, (j < i)%nat → metas !! j = Some m →
            source_key m ≠ source_key meta) ∧
    s = source_of self meta.
Proof.
  revert seen. induction metas as [|meta0 metas IH]; intros seen; simpl.
  - by rewrite elem_of_nil.
  - case_decide as Hin.
    + intros (i & meta & Hi & Hnew & Hfirst & ->)%IH.
      exists (S i), meta. repeat split; [done..|].
      intros [|j] m Hj; simpl.
      * intros [= <-] Heq. by rewrite Heq in Hin.
      * apply Hfirst. lia.
    + rewrite elem_of_cons. intros [->|(i & meta & Hi & Hnew & Hfirst & ->)%IH].
      * exists 0%nat, meta0. repeat split; [done..|]. intros; lia.
      * apply not_elem_of_union in Hnew as [Hne Hnew].
        rewrite elem_of_singleton in Hne.
        exists (S i), meta. repeat split; [done..|].
        intros [|j] m Hj; simpl.
        -- intros [= <-]. congruence.
        -- apply Hfirst. lia.
Qed.

Lemma first_in_dedup self metas seen i meta :
  metas !! i = Some meta → source_key meta ∉ seen →
  (∀ j m, (j < i)%nat → metas !! j = Some m →
          source_key m ≠ source_key meta) →
  source_of self meta ∈ dedup_sources self seen metas.
Proof.
  revert seen i. induction metas as [|meta0 metas IH]; intros seen i; simpl.
  - by rewrite lookup_nil.
  - destruct i as [|i]; simpl.
    + intros [= ->] Hnew _. case_decide; [done|]. apply elem_of_cons. by left.
    + intros Hi Hnew Hfirst.
      assert (source_key meta0 ≠ source_key meta) as Hne
        by (apply (Hfirst 0%nat); [lia|done]).
      assert (∀ j m, (j < i)%nat → metas !! j = Some m →
                     source_key m ≠ source_key meta) as Hrest
        by (intros j m Hj; apply (Hfirst (S j)); lia).
      case_decide.
      * by apply (IH seen i).
      * apply elem_of_cons. right. apply (IH _ i); [done| |done].
        rewrite not_elem_of_union, elem_of_singleton. split; congruence.
Qed.

(** *** Formatting *)

Lemma hit_header_spec meta : hit_header meta = spec_header meta.
Proof.
  unfold hit_header, spec_header, hit_title.
  by destruct (meta_course_title meta), (meta_lesson_number meta).
Qed.

Lemma format_results_text self results :
  (_format_results self results).1
  = join sep (hit_block <$> zip (documents results) (metadata results)).
Proof. unfold _format_results. simpl. by rewrite run_loop_formatted. Qed.

Lemma format_results_sources self results :
  last_sources (_format_results self results).2
  = dedup_sources self ∅ (zip (documents results) (metadata results)).*2.
Proof. unfold _format_results. simpl. by rewrite run_loop_sources. Qed.

(** *** Claims about the result of one call *)

(** C1: when the store reports no error and the result set is not empty,
    the cached source list has pairwise distinct [(course_title,
    lesson_number)] keys, its keys are exactly the keys of the hits, its
    records are exactly the records built from the first hit of each key,
    and the returned text has one block per hit, repeated keys included. *)
Theorem C1_one_source_per_key self query course_name lesson_num :
  let results := search (store self) query course_name lesson_num in
  let hits := zip (documents results) (metadata results) in
  let out := execute self query course_name lesson_num in
  str_truthy (error results) = false →
  is_empty results = false →
  NoDup (src_key <$> last_sources out.2) ∧
  (∀ k, k ∈ src_key <$> last_sources out.2 ↔ k ∈ source_key <$> hits.*2) ∧
  (∀ s, s ∈ last_sources out.2 ↔
        ∃ i meta, first_with_key hits i meta ∧ s = source_of self meta) ∧
  out.1 = join sep (hit_block <$> hits) ∧
  length (hit_block <$> hits) = length hits.
Proof.
  intros results hits out Herr Hne. subst out.
  rewrite execute_format by done.
  rewrite format_results_text, format_results_sources.
  fold results hits. split_and!.
  - apply dedup_keys_NoDup.
  - intros k. rewrite dedup_keys. split; [tauto|].
    intros Hk. split; [done|]. apply not_elem_of_empty.
  - intros s. split.
    + intros (i & meta & Hi & _ & Hfirst & ->)%dedup_from_first.
      exists i, meta. split; [|done]. split.
      * rewrite list_lookup_fmap in Hi.
        destruct (hits !! i) as [[doc meta']|] eqn:E; simplify_eq/=.
        by exists doc.
      * intros j hit Hj Hhit. apply (Hfirst j); [done|].
        by rewrite list_lookup_fmap, Hhit.
    + intros (i & meta & [[doc Hi] Hfirst] & ->).
      apply (first_in_dedup _ _ _ i).
      * by rewrite list_lookup_fmap, Hi.
      * apply not_elem_of_empty.
      * intros j m Hj. rewrite list_lookup_fmap.
        destruct (hits !! j) as [hit|] eqn:E; simpl; [|done].
        intros [= <-]. by apply (Hfirst j).
  - done.
  - apply length_fmap.
Qed.

(** C2: for a non-empty result set of N (document, metadata) pairs the
    returned text is the N blocks joined by a blank line in hit order; a
    block is the header the specification describes, a newline and the
    raw document. *)
Theorem C2_blocks_joined_in_order self query course_name lesson_num :
  let results := search (store self) query course_name lesson_num in
  let hits := zip (documents results) (metadata results) in
  let blocks := (λ hit, spec_header hit.2 +:+ newline +:+ hit.1) <$> hits in
  str_truthy (error results) = false →
  is_empty results = false →
  length (documents results) = length (metadata results) →
  (execute self query course_name lesson_num).1
  = join (newline +:+ newline) blocks ∧
  length blocks = length (documents results) ∧
  hits.*1 = documents results ∧ hits.*2 = metadata results.
Proof.
  intros results hits blocks Herr Hne Hlen.
  rewrite execute_format by done. rewrite format_results_text.
  fold results hits. split_and!.
  - f_equal. subst blocks. apply list_fmap_ext. intros _ hit _.
    unfold hit_block. by rewrite hit_header_spec.
  - subst blocks hits. rewrite length_fmap, length_zip_with. lia.
  - apply fst_zip. lia.
  - apply snd_zip. lia.
Qed.

(** C3 (amended): when the store returns a result whose error is a
    non-empty string, [execute] returns that string verbatim and leaves
    the tool, its cached [last_sources] included, as it was. *)
Theorem C3_error_returned_verbatim self query course_name lesson_num e :
  error (search (store self) query course_name lesson_num) = Some e →
  e ≠ "" →
  execute self query course_name lesson_num = (e, self).
Proof.
  intros He Hne. rewrite execute_error; rewrite He; [done|].
  by destruct e.
Qed.

Lemma string_app_empty_r (s : string) : s +:+ "" = s.
Proof.
  induction s as [|c s IH]; [done|].
  change (String c (s +:+ "") = String c s). by rewrite IH.
Qed.

(** The message of the empty-result path: a filter is mentioned when
    Python takes its value as true. *)
Lemma execute_empty_message self query course_name lesson_num :
  str_truthy (error (search (store self) query course_name lesson_num)) = false →
  is_empty (search (store self) query course_name lesson_num) = true →
  (execute self query course_name lesson_num).1
  = "No relevant content found" +:+
    ((if str_truthy course_name
      then " in course '" +:+ default "" course_name +:+ "'" else "") +:+
     (if int_truthy lesson_num
      then " in lesson " +:+ from_option pretty "" lesson_num else "")) +:+
    ".".
Proof.
  intros H1 H2. unfold execute. rewrite H1, H2. simpl. do 2 f_equal.
  destruct lesson_num as [n|].
  - destruct (str_truthy course_name), (int_truthy (Some n)); simpl;
      by rewrite ?string_app_empty_r.
  - destruct (str_truthy course_name); simpl; by rewrite ?string_app_empty_r.
Qed.

(** The loop reads the tool through its store only. *)
Lemma run_loop_set_last_sources self prior hits :
  run_loop (set_last_sources self prior) hits = run_loop self hits.
Proof. reflexivity. Qed.

(** C5 (amended): the cache is replaced by the source list computed from
    the call's own hits, whatever it held before, exactly when the call
    reaches formatting; on the store-error path and on the empty-result
    path the cache keeps the list of the earlier call. *)
Theorem C5_cache_replaced_only_when_formatting self query course_name
    lesson_num :
  let results := search (store self) query course_name lesson_num in
  let fresh :=
    sources (run_loop self (zip (documents results) (metadata results))) in
  (str_truthy (error results) = false → is_empty results = false →
   ∀ prior,
     last_sources
       (execute (set_last_sources self prior) query course_name lesson_num).2
     = fresh) ∧
  (str_truthy (error results) = true ∨ is_empty results = true →
   last_sources (execute self query course_name lesson_num).2
   = last_sources self).
Proof.
  intros results fresh. split.
  - intros Herr Hne prior. by rewrite execute_format.
  - intros Hpath. destruct (str_truthy (error results)) eqn:Herr.
    + by rewrite execute_error.
    + destruct Hpath as [|Hemp]; [done|]. by rewrite execute_empty_unchanged.
Qed.

(** *** Catalog failures *)

Lemma lookup_fails_empty_meta self title :
  lookup_fails self title →
  _get_course_metadata json_loads self title = empty_meta.
Proof.
  unfold _get_course_metadata, _get_course_metadata_try.
  intros [what H|[H|H]|others H|metadata others text what H Hjson Hraise];
    rewrite H; simpl; [done..|].
  by rewrite Hjson, Hraise.
Qed.

Lemma source_info_empty_meta title lesson_num :
  source_info empty_meta title lesson_num
  = {| course_title := title; course_link := None; instructor := None;
       lesson_number := lesson_num; lesson_title := None;
       lesson_link := None |}.
Proof. by destruct lesson_num. Qed.

Lemma source_of_same_key self meta meta' :
  source_key meta = source_key meta' →
  source_of self meta = source_of self meta'.
Proof. unfold source_of, source_key. by intros [= -> ->]. Qed.

Lemma source_of_lookup_fails self meta :
  lookup_fails self (hit_title meta) → source_of self meta = bare_source meta.
Proof.
  intros H. unfold source_of. rewrite lookup_fails_empty_meta by done.
  apply source_info_empty_meta.
Qed.

(** C6: a hit whose catalog lookup fails (the catalog raises, the title
    is not found, or the stored lesson list does not parse) does not stop
    the call: the lookup yields the empty mapping, the text is still the
    blocks of all hits, and the source record of the hit's key is in the
    cache with course_link, instructor, lesson_title and lesson_link null
    and course_title and lesson_number taken from the hit. *)
Theorem C6_failed_lookup_gives_null_fields self query course_name lesson_num
    doc meta :
  let results := search (store self) query course_name lesson_num in
  let hits := zip (documents results) (metadata results) in
  let out := execute self query course_name lesson_num in
  str_truthy (error results) = false →
  is_empty results = false →
  (doc, meta) ∈ hits →
  lookup_fails self (hit_title meta) →
  _get_course_metadata json_loads self (hit_title meta) = empty_meta ∧
  out.1 = join sep (hit_block <$> hits) ∧
  bare_source meta ∈ last_sources out.2 ∧
  (∀ s, s ∈ last_sources out.2 → src_key s = source_key meta →
        s = bare_source meta).
Proof.
  intros results hits out Herr Hne Hin Hfail. subst out.
  rewrite execute_format by done.
  rewrite format_results_text, format_results_sources. fold results hits.
  assert (∀ s, s ∈ dedup_sources self ∅ hits.*2 →
               src_key s = source_key meta → s = bare_source meta) as Huniq.
  { intros s (i & meta' & _ & _ & _ & ->)%dedup_from_first.
    rewrite src_key_source_of. intros Hk.
    rewrite (source_of_same_key _ _ _ Hk). by apply source_of_lookup_fails. }
  split_and!; [by apply lookup_fails_empty_meta|done| |done].
  assert (source_key meta ∈ src_key <$> dedup_sources self ∅ hits.*2) as Hk.
  { apply dedup_keys. split; [|apply not_elem_of_empty].
    apply list_elem_of_fmap. exists meta. split; [done|].
    apply list_elem_of_fmap. by exists (doc, meta). }
  apply list_elem_of_fmap in Hk as (s & Hs & Hmem).
  by rewrite <- (Huniq s Hmem).
Qed.

(** *** Repeated calls *)

Lemma get_course_metadata_ext self self' title :
  (∀ t, course_catalog_get (store self) t = course_catalog_get (store self') t) →
  _get_course_metadata json_loads self title
  = _get_course_metadata json_loads self' title.
Proof.
  intros H. unfold _get_course_metadata, _get_course_metadata_try.
  by rewrite H.
Qed.

Lemma run_loop_ext self self' hits :
  (∀ t, course_catalog_get (store self) t = course_catalog_get (store self') t) →
  run_loop self hits = run_loop self' hits.
Proof.
  intros H. unfold run_loop. generalize loop_start.
  induction hits as [|hit hits IH]; intros st; simpl; [done|].
  rewrite IH. f_equal. unfold loop_body.
  by rewrite (get_course_metadata_ext self self').
Qed.

(** C8 (amended): two calls with the same arguments, against stores that
    give the same search result and the same catalog replies, return the
    same text.  When they reach formatting they leave the same cached
    source list.  When the store reports an error or the result set is
    empty, each call leaves the list its tool held before the call, so
    the two lists agree only if they agreed before. *)
Theorem C8_same_inputs_same_outcome self self' query course_name lesson_num :
  let results := search (store self) query course_name lesson_num in
  let first := execute self query course_name lesson_num in
  let second := execute self' query course_name lesson_num in
  search (store self') query course_name lesson_num = results →
  (∀ t, course_catalog_get (store self) t = course_catalog_get (store self') t) →
  second.1 = first.1 ∧
  (str_truthy (error results) = false → is_empty results = false →
   last_sources second.2 = last_sources first.2) ∧
  (str_truthy (error results) = true ∨ is_empty results = true →
   last_sources first.2 = last_sources self ∧
   last_sources second.2 = last_sources self').
Proof.
  intros results first second Hsearch Hcat. subst first second.
  unfold execute. rewrite Hsearch. fold results.
  destruct (str_truthy (error results)); [by split_and!|].
  destruct (is_empty results); [by split_and!|].
  unfold _format_results. simpl.
  rewrite (run_loop_ext self self') by done.
  split_and!; [done..|]. by intros [?|?].
Qed.

(** *** Result sets of unequal lengths *)

Lemma zip_paired {A B : Type} (l : list A) (k : list B) :
  zip l k
  = zip (take (length l `min` length k)%nat l)
        (take (length l `min` length k)%nat k).
Proof.
  revert k. induction l as [|x l IH]; intros [|y k]; simpl; [done..|].
  by rewrite <- IH.
Qed.

(** C10 (amended): for a result set whose document and metadata
    sequences differ in length, a call that reaches formatting (no store
    error, at least one document) formats and caches the first
    [min (length documents) (length metadata)] pairs only and does not
    look at the surplus of the longer sequence; a call that meets a store
    error returns the error, and a call that finds no document returns
    the not-found message, both leaving the tool and its cache as they
    were, whatever the metadata holds. *)
Theorem C10_surplus_ignored self query course_name lesson_num :
  let results := search (store self) query course_name lesson_num in
  let out := execute self query course_name lesson_num in
  length (documents results) ≠ length (metadata results) →
  (str_truthy (error results) = true →
   out = (default "" (error results), self)) ∧
  (str_truthy (error results) = false → is_empty results = true →
   out.2 = self ∧
   out.1
   = "No relevant content found" +:+
     ((if str_truthy course_name
       then " in course '" +:+ default "" course_name +:+ "'" else "") +:+
      (if int_truthy lesson_num
       then " in lesson " +:+ from_option pretty "" lesson_num else "")) +:+
     ".") ∧
  (str_truthy (error results) = false → is_empty results = false →
   out.1 = join sep (hit_block <$> paired_prefix results) ∧
   last_sources out.2 = sources (run_loop self (paired_prefix results)) ∧
   length (paired_prefix results)
   = (length (documents results) `min` length (metadata results))%nat).
Proof.
  intros results out _. subst out. split_and!.
  - intros Herr. by apply execute_error.
  - intros Herr Hemp. split; [by apply execute_empty_unchanged|].
    by apply execute_empty_message.
  - intros Herr Hne.
    rewrite execute_format by done. rewrite format_results_text.
    unfold _format_results, paired_prefix. simpl. fold results.
    rewrite <- zip_paired. split_and!; [done..|].
    apply length_zip_with.
Qed.

(** *** The tool manager *)

Lemma dict_get_set {V : Type} k (v : V) d : dict_get k (dict_set k v d) = Some v.
Proof.
  induction d as [|[k' v'] d IH]; simpl.
  - by rewrite decide_True.
  - case_decide; simpl; [by rewrite decide_True|]. by rewrite decide_False.
Qed.

Lemma dict_set_same {V : Type} k (v : V) d :
  dict_get k d = Some v → dict_set k v d = d.
Proof.
  induction d as [|[k' v'] d IH]; simpl; [done|].
  case_decide; [by intros [= ->]; subst|]. intros Hget. by rewrite IH.
Qed.

Lemma dict_get_elem_of {V : Type} k (v : V) d :
  dict_get k d = Some v → (k, v) ∈ d.
Proof.
  induction d as [|[k' v'] d IH]; simpl; [done|].
  case_decide.
  - intros [= ->]. subst. apply elem_of_cons. by left.
  - intros Hget. apply elem_of_cons. right. by apply IH.
Qed.

Lemma dict_set_keys {V : Type} k (v : V) d :
  k ∈ d.*1 → (dict_set k v d).*1 = d.*1.
Proof.
  induction d as [|[k' v'] d IH]; csimpl; [by rewrite elem_of_nil|].
  case_decide; csimpl; [by subst|].
  rewrite elem_of_cons. intros [?|Hin]; [congruence|]. by rewrite IH.
Qed.

Lemma dict_set_keys_new {V : Type} k (v : V) d :
  k ∉ d.*1 → (dict_set k v d).*1 = d.*1 ++ [k].
Proof.
  induction d as [|[k' v'] d IH]; csimpl; [done|].
  rewrite not_elem_of_cons. intros [Hne Hin].
  rewrite decide_False by done. csimpl. by rewrite IH.
Qed.

(** Assigning to a key keeps the keys of the dictionary distinct. *)
Lemma dict_set_NoDup {V : Type} k (v : V) d :
  NoDup d.*1 → NoDup (dict_set k v d).*1.
Proof.
  intros Hnd. destruct (decide (k ∈ d.*1)) as [Hin|Hin].
  - by rewrite dict_set_keys.
  - rewrite dict_set_keys_new by done. apply NoDup_app.
    split_and!; [done| |apply NoDup_singleton].
    intros k' Hk' ->%list_elem_of_singleton. done.
Qed.

Lemma register_tool_NoDup mgr tool mgr' :
  NoDup (tools mgr).*1 → register_tool mgr tool = Returned mgr' →
  NoDup (tools mgr').*1.
Proof.
  unfold register_tool. intros Hnd.
  destruct (negb _); [done|]. intros [= <-]. by apply dict_set_NoDup.
Qed.

Lemma execute_tool_NoDup mgr key kwargs :
  NoDup (tools mgr).*1 →
  NoDup (tools (execute_tool json_loads mgr key kwargs).2).*1.
Proof.
  unfold execute_tool. intros Hnd.
  destruct (dict_get key (tools mgr)); [|done]. by apply dict_set_NoDup.
Qed.

Lemma first_last_sources_none values :
  (∀ tool, tool ∈ values → tool_last_sources tool = None) →
  first_last_sources values = [].
Proof.
  induction values as [|tool values IH]; intros H; simpl; [done|].
  rewrite (H tool) by (apply elem_of_cons; by left).
  apply IH. intros tool' Hin. apply H, elem_of_cons. by right.
Qed.

(** With a single tool that has a cache, the manager's answer is that
    tool's cache. *)
Lemma first_last_sources_only key old new d :
  NoDup d.*1 →
  dict_get key d = Some old →
  only_cache key d →
  first_last_sources (dict_set key new d).*2
  = default [] (tool_last_sources new).
Proof.
  induction d as [|[k v] d IH]; csimpl; [done|].
  intros [Hk Hnd]%NoDup_cons Hget Honly.
  case_decide as Heq; csimpl.
  - subst k. rewrite (first_last_sources_none d.*2).
    + by destruct (tool_last_sources new) as [[|]|].
    + intros tool [[k' tool'] [-> Hin]]%list_elem_of_fmap. simpl.
      apply (Honly k'); [apply elem_of_cons; by right|].
      intros ->. apply Hk. apply list_elem_of_fmap. by exists (key, tool').
  - rewrite (Honly k v); [|apply elem_of_cons; by left|done].
    apply IH; [done..|].
    intros k' tool' Hin. apply Honly, elem_of_cons. by right.
Qed.

Lemma execute_tool_search mgr key t kwargs :
  dict_get key (tools mgr) = Some (SearchTool t) →
  execute_tool json_loads mgr key kwargs
  = ((execute t (kw_query kwargs) (kw_course_name kwargs)
        (kw_lesson_number kwargs)).1,
     {| tools :=
          dict_set key
            (SearchTool (execute t (kw_query kwargs) (kw_course_name kwargs)
                           (kw_lesson_number kwargs)).2)
            (tools mgr) |}).
Proof. intros H. unfold execute_tool. by rewrite H. Qed.

(** C7: after a call that formatted a non-empty result set, a manager in
    which the search tool is the only tool with a source cache holds the
    tool as the call left it, and [get_last_sources] returns the list that
    call cached: the same records in the same order. *)
Theorem C7_manager_returns_cached_sources mgr key t kwargs :
  let results :=
    search (store t) (kw_query kwargs) (kw_course_name kwargs)
      (kw_lesson_number kwargs) in
  let out :=
    execute t (kw_query kwargs) (kw_course_name kwargs)
      (kw_lesson_number kwargs) in
  let after := (execute_tool json_loads mgr key kwargs).2 in
  NoDup (tools mgr).*1 →
  dict_get key (tools mgr) = Some (SearchTool t) →
  only_cache key (tools mgr) →
  str_truthy (error results) = false →
  is_empty results = false →
  dict_get key (tools after) = Some (SearchTool out.2) ∧
  get_last_sources after = last_sources out.2 ∧
  get_last_sources after
  = sources (run_loop t (zip (documents results) (metadata results))).
Proof.
  intros results out after Hnd Hget Honly Herr Hne. subst after.
  rewrite (execute_tool_search _ _ t) by done. simpl. fold out.
  assert (get_last_sources {| tools := dict_set key (SearchTool out.2) (tools mgr) |}
          = last_sources out.2) as Hsrc.
  { unfold get_last_sources. simpl.
    by rewrite (first_last_sources_only key (SearchTool t)). }
  split_and!; [apply dict_get_set|done|].
  rewrite Hsrc. subst out. by rewrite execute_format.
Qed.

(** C9: on the empty-result path (no store error, no hit) the tool is
    left as it was, so the manager is unchanged and [get_last_sources]
    answers as before the call; where the search tool is the only tool
    with a cache, that answer is the list an earlier search cached. *)
Theorem C9_empty_result_keeps_cache mgr key t kwargs :
  let results :=
    search (store t) (kw_query kwargs) (kw_course_name kwargs)
      (kw_lesson_number kwargs) in
  let out :=
    execute t (kw_query kwargs) (kw_course_name kwargs)
      (kw_lesson_number kwargs) in
  let after := (execute_tool json_loads mgr key kwargs).2 in
  dict_get key (tools mgr) = Some (SearchTool t) →
  str_truthy (error results) = false →
  is_empty results = true →
  last_sources out.2 = last_sources t ∧
  after = mgr ∧
  get_last_sources after = get_last_sources mgr ∧
  (NoDup (tools mgr).*1 → only_cache key (tools mgr) →
   get_last_sources after = last_sources t).
Proof.
  intros results out after Hget Herr Hemp.
  assert (out.2 = t) as Hout by by apply execute_empty_unchanged.
  assert (after = mgr) as Hafter.
  { subst after. rewrite (execute_tool_search _ _ t) by done. simpl.
    fold out. rewrite Hout, dict_set_same by done. by destruct mgr. }
  rewrite Hout, Hafter. split_and!; [done..|].
  intros Hnd Honly. unfold get_last_sources.
  rewrite <- (dict_set_same key (SearchTool t) (tools mgr)) at 1 by done.
  by rewrite (first_last_sources_only key (SearchTool t)).
Qed.

End Properties.

(** ** Further properties of the code *)

Section FurtherProperties.

Variable json_loads : string → exc (list Lesson).

Local Abbreviation execute := (execute json_loads).
Local Abbreviation _format_results := (_format_results json_loads).
Local Abbreviation run_loop := (run_loop json_loads).
Local Abbreviation loop_body := (loop_body json_loads).
Local Abbreviation execute_tool := (execute_tool json_loads).
Local Abbreviation source_of := (source_of json_loads).
Local Abbreviation dedup_sources := (dedup_sources json_loads).

(** *** Dictionaries *)

Lemma dict_get_set_ne {V : Type} k k' (v : V) d :
  k ≠ k' → dict_get k' (dict_set k v d) = dict_get k' d.
Proof.
  intros Hne. induction d as [|[k0 v0] d IH]; simpl.
  - by rewrite decide_False.
  - destruct (decide (k0 = k)) as [->|]; simpl.
    + by rewrite !decide_False.
    + by rewrite IH.
Qed.

Lemma dict_get_None {V : Type} k (d : list (string * V)) :
  dict_get k d = None ↔ k ∉ d.*1.
Proof.
  induction d as [|[k0 v0] d IH]; csimpl.
  - split; [intros _; apply not_elem_of_nil|done].
  - rewrite not_elem_of_cons. case_decide as Hk.
    + split; [done|]. intros [? _]. congruence.
    + rewrite IH. split; [|tauto]. intros Hin. split; [congruence|done].
Qed.

Lemma dict_set_append {V : Type} k (v : V) d :
  k ∉ d.*1 → dict_set k v d = d ++ [(k, v)].
Proof.
  induction d as [|[k0 v0] d IH]; csimpl; [done|].
  rewrite not_elem_of_cons. intros [Hne Hin].
  rewrite decide_False by done. by rewrite IH.
Qed.

Lemma dict_set_insert {V : Type} k (v : V) d i :
  NoDup d.*1 → d.*1 !! i = Some k → dict_set k v d = <[i := (k, v)]> d.
Proof.
  revert i. induction d as [|[k0 v0] d IH]; intros i; csimpl; [done|].
  intros [Hk0 Hnd]%NoDup_cons. destruct i as [|i]; simpl.
  - intros [= ->]. by rewrite decide_True.
  - intros Hi. rewrite decide_False.
    + by rewrite (IH i).
    + intros ->. apply Hk0. by eapply list_elem_of_lookup_2.
Qed.

(** *** reset_sources *)

Lemma clear_last_sources_empty tool :
  tool_last_sources (clear_last_sources tool) = None ∨
  tool_last_sources (clear_last_sources tool) = Some [].
Proof.
  destruct tool as [t|t]; simpl; [by right|].
  destruct (plain_last_sources t); simpl; [by right|by left].
Qed.

Lemma dict_get_reset k mgr :
  dict_get k (tools (reset_sources mgr))
  = clear_last_sources <$> dict_get k (tools mgr).
Proof.
  unfold reset_sources. simpl.
  induction (tools mgr) as [|[k0 tool] d IH]; csimpl; [done|]. by case_decide.
Qed.

(** X1: after [reset_sources] every tool's cache is absent or empty, and
    [get_last_sources] returns the empty list, whatever the tools held
    before. *)
Theorem reset_sources_then_no_sources mgr :
  get_last_sources (reset_sources mgr) = [] ∧
  ∀ k tool, (k, tool) ∈ tools (reset_sources mgr) →
            tool_last_sources tool = None ∨ tool_last_sources tool = Some [].
Proof.
  split.
  - unfold get_last_sources, reset_sources. simpl.
    induction (tools mgr) as [|[k tool] d IH]; csimpl; [done|].
    by destruct (clear_last_sources_empty tool) as [->| ->].
  - intros k tool [[k0 tool0] [[= -> ->] _]]%list_elem_of_fmap.
    apply clear_last_sources_empty.
Qed.

(** X2: [reset_sources] keeps the registry: the same names in the same
    order, the same tool definitions, each tool replaced by itself with
    its cache emptied; a tool without a [last_sources] attribute is left
    exactly as it was, and resetting twice is resetting once. *)
Theorem reset_sources_keeps_registry mgr :
  (tools (reset_sources mgr)).*1 = (tools mgr).*1 ∧
  get_tool_definitions (reset_sources mgr) = get_tool_definitions mgr ∧
  (∀ k, dict_get k (tools (reset_sources mgr))
        = clear_last_sources <$> dict_get k (tools mgr)) ∧
  (∀ tool, tool_last_sources tool = None → clear_last_sources tool = tool) ∧
  reset_sources (reset_sources mgr) = reset_sources mgr.
Proof.
  unfold reset_sources, get_tool_definitions. simpl. split_and!.
  - induction (tools mgr) as [|[k tool] d IH]; csimpl; [done|]. by rewrite IH.
  - induction (tools mgr) as [|[k tool] d IH]; csimpl; [done|].
    rewrite IH. by destruct tool.
  - intros k. apply (dict_get_reset k mgr).
  - intros [t|[d e c]]; simpl; [done|]. by intros ->.
  - f_equal. induction (tools mgr) as [|[k tool] d IH]; csimpl; [done|].
    rewrite IH. do 2 f_equal.
    destruct tool as [t|[d0 e c]]; simpl; [done|]. by destruct c.
Qed.

(** *** register_tool *)

(** X3: [register_tool] raises exactly when the tool's definition has no
    name or an empty one. *)
Theorem register_tool_raises_iff_no_name mgr tool :
  (∃ what, register_tool mgr tool = Raised what)
  ↔ name (get_tool_definition tool) = None
    ∨ name (get_tool_definition tool) = Some "".
Proof.
  unfold register_tool.
  destruct (name (get_tool_definition tool)) as [[|c n]|]; simpl.
  - split; [by right|]. by eexists.
  - split; [by intros [? ?]|]. by intros [|].
  - split; [by left|]. by eexists.
Qed.

(** X4: a successful registration stores the tool under the name of its
    definition, where a lookup finds it, and leaves the tool found under
    every other name as it was. *)
Theorem register_tool_then_lookup mgr tool mgr' :
  register_tool mgr tool = Returned mgr' →
  ∃ n, name (get_tool_definition tool) = Some n ∧ n ≠ "" ∧
       dict_get n (tools mgr') = Some tool ∧
       ∀ k, k ≠ n → dict_get k (tools mgr') = dict_get k (tools mgr).
Proof.
  unfold register_tool.
  destruct (name (get_tool_definition tool)) as [[|c n]|]; simpl; [done| |done].
  intros [= <-]. exists (String c n). simpl. split_and!; [done..| |].
  - apply dict_get_set.
  - intros k Hk. by apply dict_get_set_ne.
Qed.

(** X5: registering under a name that is already taken overwrites in
    place: the names, their order and their number stay, the definitions
    list changes at the position of that name only. *)
Theorem register_tool_overwrites_in_place mgr tool mgr' n i :
  register_tool mgr tool = Returned mgr' →
  name (get_tool_definition tool) = Some n →
  NoDup (tools mgr).*1 →
  (tools mgr).*1 !! i = Some n →
  (tools mgr').*1 = (tools mgr).*1 ∧
  length (tools mgr') = length (tools mgr) ∧
  get_tool_definitions mgr'
  = <[i := get_tool_definition tool]> (get_tool_definitions mgr).
Proof.
  unfold register_tool, get_tool_definitions. intros Hreg Hn Hnd Hi.
  rewrite Hn in Hreg. simpl in Hreg.
  destruct (negb _); [done|]. injection Hreg as <-. simpl.
  rewrite (dict_set_insert _ _ _ i) by done. split_and!.
  - rewrite list_fmap_insert. simpl. by apply list_insert_id.
  - apply length_insert.
  - by rewrite list_fmap_insert.
Qed.

(** X6: registering under a new name appends: the name comes last, and
    [get_tool_definitions] lists the definitions in registration order
    with the new one at the end. *)
Theorem register_tool_appends_new_name mgr tool mgr' n :
  register_tool mgr tool = Returned mgr' →
  name (get_tool_definition tool) = Some n →
  n ∉ (tools mgr).*1 →
  (tools mgr').*1 = (tools mgr).*1 ++ [n] ∧
  get_tool_definitions mgr'
  = get_tool_definitions mgr ++ [get_tool_definition tool].
Proof.
  unfold register_tool, get_tool_definitions. intros Hreg Hn Hnew.
  rewrite Hn in Hreg. simpl in Hreg.
  destruct (negb _); [done|]. injection Hreg as <-. simpl.
  rewrite dict_set_append by done. by rewrite !fmap_app.
Qed.

(** *** execute_tool *)

(** X7: [execute_tool] never changes the registry: the registered names,
    their order and their number, and the tool found under every other
    name are as before the call. *)
Theorem execute_tool_keeps_registry mgr key kwargs :
  let after := (execute_tool mgr key kwargs).2 in
  (tools after).*1 = (tools mgr).*1 ∧
  length (tools after) = length (tools mgr) ∧
  ∀ k, k ≠ key → dict_get k (tools after) = dict_get k (tools mgr).
Proof.
  unfold execute_tool.
  destruct (dict_get key (tools mgr)) as [tool|] eqn:Hget; simpl; [|done].
  assert ((dict_set key (tool_execute json_loads tool kwargs).2 (tools mgr)).*1
          = (tools mgr).*1) as Hkeys.
  { apply dict_set_keys. destruct (decide (key ∈ (tools mgr).*1)); [done|].
    apply dict_get_None in n. congruence. }
  split_and!; [done| |].
  - by rewrite <- (length_fmap fst), Hkeys, length_fmap.
  - intros k Hk. by apply dict_get_set_ne.
Qed.

(** X8: executing a name that is not registered returns the not-found
    message with the name in it and leaves the manager unchanged. *)
Theorem execute_tool_unknown_name mgr key kwargs :
  key ∉ (tools mgr).*1 →
  execute_tool mgr key kwargs = ("Tool '" +:+ key +:+ "' not found", mgr).
Proof.
  intros Hkey%dict_get_None. unfold execute_tool. by rewrite Hkey.
Qed.

(** X9: registering a [CourseSearchTool] never raises; afterwards the
    tool is found under ["search_course_content"] and executing that name
    returns the text of the tool's [execute] on the keyword arguments. *)
Theorem register_search_tool_then_execute mgr t kwargs :
  ∃ mgr', register_tool mgr (SearchTool t) = Returned mgr' ∧
    dict_get "search_course_content" (tools mgr') = Some (SearchTool t) ∧
    (execute_tool mgr' "search_course_content" kwargs).1
    = (execute t (kw_query kwargs) (kw_course_name kwargs)
         (kw_lesson_number kwargs)).1.
Proof.
  eexists. split; [reflexivity|]. simpl.
  assert (dict_get "search_course_content"
            (dict_set "search_course_content" (SearchTool t) (tools mgr))
          = Some (SearchTool t)) as Hget by apply dict_get_set.
  split; [done|]. unfold execute_tool. simpl. by rewrite Hget.
Qed.

(** *** get_last_sources *)

Lemma first_last_sources_skip before rest :
  (∀ tool, tool ∈ before →
           tool_last_sources tool = None ∨ tool_last_sources tool = Some []) →
  first_last_sources (before ++ rest) = first_last_sources rest.
Proof.
  induction before as [|tool before IH]; intros H; simpl; [done|].
  destruct (H tool) as [-> | ->]; [apply elem_of_cons; by left|..];
    apply IH; intros tool' Hin; apply H, elem_of_cons; by right.
Qed.

(** X10: [get_last_sources] returns the cache of the first registered
    tool whose cache is not empty: tools registered before it with no
    cache or an empty one are skipped, tools registered after it are not
    consulted. *)
Theorem get_last_sources_first_nonempty mgr before k tool rest s l :
  tools mgr = before ++ (k, tool) :: rest →
  (∀ entry, entry ∈ before →
            tool_last_sources entry.2 = None ∨
            tool_last_sources entry.2 = Some []) →
  tool_last_sources tool = Some (s :: l) →
  get_last_sources mgr = s :: l.
Proof.
  intros Htools Hbefore Htool. unfold get_last_sources.
  rewrite Htools, fmap_app, first_last_sources_skip.
  - csimpl. by rewrite Htool.
  - intros tool' [entry [-> Hin]]%list_elem_of_fmap. by apply Hbefore.
Qed.

(** X11: [get_last_sources] returns the empty list exactly when no
    registered tool has a non-empty cache. *)
Theorem get_last_sources_empty_iff mgr :
  get_last_sources mgr = []
  ↔ ∀ k tool, (k, tool) ∈ tools mgr →
              tool_last_sources tool = None ∨ tool_last_sources tool = Some [].
Proof.
  unfold get_last_sources.
  induction (tools mgr) as [|[k0 tool0] d IH]; csimpl.
  - split; [|done]. intros _ k tool Hin. by apply elem_of_nil in Hin.
  - destruct (tool_last_sources tool0) as [[|s l]|] eqn:Hc.
    + rewrite IH. split.
      * intros H k tool [[= -> ->]|Hin]%elem_of_cons; [by right|by eapply H].
      * intros H k tool Hin. apply (H k), elem_of_cons. by right.
    + split; [done|]. intros H.
      destruct (H k0 tool0) as [?|?]; [apply elem_of_cons; by left|..];
        congruence.
    + rewrite IH. split.
      * intros H k tool [[= -> ->]|Hin]%elem_of_cons; [by left|by eapply H].
      * intros H k tool Hin. apply (H k), elem_of_cons. by right.
Qed.

(** *** _get_lesson_info and the lesson fields of a source *)

Lemma find_lesson_result lessons n :
  find_lesson lessons n = empty_lesson ∨
  (find_lesson lessons n ∈ lessons ∧
   les_lesson_number (find_lesson lessons n) = Some n).
Proof.
  induction lessons as [|lesson lessons IH]; simpl; [by left|].
  case_decide.
  - right. split; [apply elem_of_cons; by left|done].
  - destruct IH as [?|[? ?]]; [by left|right].
    split; [apply elem_of_cons; by right|done].
Qed.

Lemma find_lesson_empty lessons n lesson :
  find_lesson lessons n = empty_lesson → lesson ∈ lessons →
  les_lesson_number lesson ≠ Some n.
Proof.
  induction lessons as [|l0 lessons IH]; simpl.
  - intros _ Hin. by apply elem_of_nil in Hin.
  - case_decide as Hl0.
    + intros ->. done.
    + intros He [->|Hin]%elem_of_cons; [done|by apply IH].
Qed.

(** X12: [_get_lesson_info] returns a non-empty mapping exactly when the
    lesson list has an entry with the requested number, and then the
    mapping returned is an entry of the list with that number; a missing
    ['lessons'] key counts as an empty list. *)
Theorem lesson_info_found_iff course_meta n :
  let lesson_info := _get_lesson_info course_meta n in
  (lesson_truthy lesson_info = true
   ↔ ∃ lesson, lesson ∈ default [] (cm_lessons course_meta) ∧
               les_lesson_number lesson = Some n) ∧
  (lesson_truthy lesson_info = true →
   lesson_info ∈ default [] (cm_lessons course_meta) ∧
   les_lesson_number lesson_info = Some n) ∧
  (lesson_truthy lesson_info = false → lesson_info = empty_lesson).
Proof.
  unfold _get_lesson_info. set (lessons := default [] (cm_lessons course_meta)).
  simpl. destruct (find_lesson_result lessons n) as [He|[Hin Hn]].
  - pose proof (find_lesson_empty lessons n) as Hnone.
    rewrite He in *. simpl. split_and!; [|done..]. split; [done|].
    intros (lesson & Hin & Hn). by destruct (Hnone lesson eq_refl Hin).
  - assert (lesson_truthy (find_lesson lessons n) = true) as Ht
      by (unfold lesson_truthy; by rewrite Hn).
    rewrite Ht. split_and!; [|done..]. split; [|done]. intros _.
    by exists (find_lesson lessons n).
Qed.

(** X13: with several entries of the requested number, the first one in
    list order is returned. *)
Theorem lesson_info_first_match course_meta n before lesson rest :
  cm_lessons course_meta = Some (before ++ lesson :: rest) →
  (∀ l, l ∈ before → les_lesson_number l ≠ Some n) →
  les_lesson_number lesson = Some n →
  _get_lesson_info course_meta n = lesson.
Proof.
  intros Hl Hbefore Hn. unfold _get_lesson_info. rewrite Hl. simpl.
  clear Hl. induction before as [|l0 before IH]; simpl.
  - by rewrite decide_True.
  - rewrite decide_False by (apply Hbefore, elem_of_cons; by left).
    apply IH. intros l Hin. apply Hbefore, elem_of_cons. by right.
Qed.

(** X14: in the source record of a hit, course_title and lesson_number
    are the hit's; without a lesson number lesson_title and lesson_link
    are null; and when either is not null, the hit has a lesson number,
    the catalog's lesson list has an entry with that number, and both
    fields are that entry's. *)
Theorem source_lesson_fields_from_matching_lesson course_meta title lesson_num :
  let s := source_info course_meta title lesson_num in
  course_title s = title ∧ lesson_number s = lesson_num ∧
  (lesson_num = None → lesson_title s = None ∧ lesson_link s = None) ∧
  (lesson_title s ≠ None ∨ lesson_link s ≠ None →
   ∃ n lesson, lesson_num = Some n ∧
     lesson ∈ default [] (cm_lessons course_meta) ∧
     les_lesson_number lesson = Some n ∧
     lesson_title s = les_lesson_title lesson ∧
     lesson_link s = les_lesson_link lesson).
Proof.
  unfold source_info. destruct lesson_num as [n|]; simpl.
  2:{ split_and!; [done..|]. by intros [?|?]. }
  destruct (meta_truthy course_meta); simpl.
  2:{ split_and!; [done..|]. by intros [?|?]. }
  destruct (lesson_truthy (_get_lesson_info course_meta n)) eqn:Ht; simpl.
  2:{ split_and!; [done..|]. by intros [?|?]. }
  split_and!; [done..|]. intros _.
  exists n, (_get_lesson_info course_meta n). unfold _get_lesson_info in *.
  destruct (find_lesson_result (default [] (cm_lessons course_meta)) n)
    as [He|[Hin Hn]]; [by rewrite He in Ht|done].
Qed.

(** *** Sources of hits whose course is in the catalog *)

Lemma source_info_course_fields course_meta title lesson_num :
  course_link (source_info course_meta title lesson_num)
  = cm_course_link course_meta ∧
  instructor (source_info course_meta title lesson_num)
  = cm_instructor course_meta.
Proof.
  unfold source_info.
  assert (meta_truthy course_meta = false →
          cm_course_link course_meta = None ∧ cm_instructor course_meta = None)
    as Hfalsy.
  { unfold meta_truthy.
    destruct (cm_course_link course_meta), (cm_instructor course_meta); try done.
    all: by destruct (cm_lessons_json course_meta). }
  destruct lesson_num as [n|]; destruct (meta_truthy course_meta) eqn:Ht;
    simpl; try done.
  - by destruct (lesson_truthy _).
  - destruct (Hfalsy eq_refl) as [-> ->]. done.
  - destruct (Hfalsy eq_refl) as [-> ->]. done.
Qed.

Lemma source_for_hit self results doc meta :
  (doc, meta) ∈ zip (documents results) (metadata results) →
  source_of self meta ∈ last_sources (_format_results self results).2.
Proof.
  intros Hin. rewrite format_results_sources.
  set (hits := zip (documents results) (metadata results)) in *.
  assert (source_key meta ∈ src_key <$> dedup_sources self ∅ hits.*2) as Hk.
  { apply dedup_keys. split; [|apply not_elem_of_empty].
    apply list_elem_of_fmap. exists meta. split; [done|].
    apply list_elem_of_fmap. by exists (doc, meta). }
  apply list_elem_of_fmap in Hk as (s & Hs & Hmem).
  pose proof Hmem as (i & meta' & _ & _ & _ & ->)%dedup_from_first.
  rewrite src_key_source_of in Hs.
  by rewrite (source_of_same_key _ _ _ _ Hs).
Qed.

(** X15: when the catalog returns a mapping for the title of a hit and
    its lesson list is absent or parses, the cache holds a source with
    the hit's key whose course_link and instructor are those of the
    first mapping the catalog returned. *)
Theorem found_course_gives_catalog_fields self query course_name lesson_num
    doc meta course_meta others :
  let results := search (store self) query course_name lesson_num in
  let hits := zip (documents results) (metadata results) in
  let out := execute self query course_name lesson_num in
  str_truthy (error results) = false →
  is_empty results = false →
  (doc, meta) ∈ hits →
  course_catalog_get (store self) (hit_title meta)
  = Returned (Some (Some course_meta :: others)) →
  (cm_lessons_json course_meta = None ∨
   ∃ text parsed, cm_lessons_json course_meta = Some text ∧
                  json_loads text = Returned parsed) →
  ∃ s, s ∈ last_sources out.2 ∧ src_key s = source_key meta ∧
       course_link s = cm_course_link course_meta ∧
       instructor s = cm_instructor course_meta.
Proof.
  intros results hits out Herr Hne Hin Hcat Hjson. subst out.
  rewrite execute_format by done. fold results.
  exists (source_of self meta).
  split; [by eapply source_for_hit|]. split; [apply src_key_source_of|].
  unfold source_of.
  destruct (source_info_course_fields
              (_get_course_metadata json_loads self (hit_title meta))
              (hit_title meta) (meta_lesson_number meta)) as [-> ->].
  unfold _get_course_metadata, _get_course_metadata_try. rewrite Hcat. simpl.
  destruct Hjson as [->|(text & parsed & -> & Hp)]; [done|].
  by rewrite Hp.
Qed.

(** *** The loop state and the catalog lookups *)

Lemma seen_step self st hit :
  seen_sources (loop_body self st hit) = {[source_key hit.2]} ∪ seen_sources st.
Proof.
  unfold loop_body, source_key. case_decide as Hin; simpl; [|done].
  apply set_eq. intros k. rewrite elem_of_union, elem_of_singleton.
  split; [tauto|]. by intros [->|?].
Qed.

Lemma cache_step self st hit title :
  course_metadata_cache (loop_body self st hit) !! title = None
  ↔ course_metadata_cache st !! title = None ∧
    (source_key hit.2 ∈ seen_sources st ∨ title ≠ hit_title hit.2).
Proof.
  unfold loop_body, source_key. case_decide as Hin; simpl; [tauto|].
  destruct (course_metadata_cache st !! hit_title hit.2) as [m|] eqn:E.
  - split; [|tauto]. intros Hnone. split; [done|]. right. congruence.
  - rewrite lookup_insert. case_decide as Ht.
    + subst title. split; [done|]. intros [_ [?|?]]; done.
    + split; [|tauto]. intros Hnone. split; [done|]. right. congruence.
Qed.

Lemma cache_tracks_seen_start : cache_tracks_seen loop_start.
Proof.
  intros title. simpl. rewrite lookup_empty. split.
  - by intros [? ?].
  - intros [n Hin]. by apply not_elem_of_empty in Hin.
Qed.

Lemma cache_tracks_seen_step self st hit :
  cache_tracks_seen st → cache_tracks_seen (loop_body self st hit).
Proof.
  intros Hinv title. rewrite seen_step. split.
  - intros Hsome%not_eq_None_Some. rewrite cache_step in Hsome.
    destruct (decide (title = hit_title hit.2)) as [->|Hne].
    + exists (meta_lesson_number hit.2).
      apply elem_of_union. left. by apply elem_of_singleton.
    + destruct (course_metadata_cache st !! title) as [m|] eqn:E.
      * destruct (proj1 (Hinv title)) as [n Hn]; [rewrite E; by eexists|].
        exists n. apply elem_of_union. by right.
      * exfalso. apply Hsome. split; [done|by right].
  - intros [n Hin]. apply not_eq_None_Some. rewrite cache_step.
    intros [Hnone Hor].
    apply elem_of_union in Hin as [Heq%elem_of_singleton|Hin].
    + unfold source_key in Heq. injection Heq as -> ->.
      destruct Hor as [Hseen|Hne]; [|done].
      destruct (proj2 (Hinv (hit_title hit.2))) as [m Hm]; [by eexists|].
      congruence.
    + destruct (proj2 (Hinv title)) as [m Hm]; [by eexists|]. congruence.
Qed.

Lemma lookups_from_spec self hits st :
  cache_tracks_seen st →
  NoDup (lookups_from json_loads self st hits) ∧
  ∀ title, title ∈ lookups_from json_loads self st hits
           ↔ title ∈ hit_title <$> hits.*2 ∧
             course_metadata_cache st !! title = None.
Proof.
  revert st. induction hits as [|hit hits IH]; intros st Hinv; csimpl.
  - split; [constructor|]. intros title. rewrite elem_of_nil. tauto.
  - destruct (IH (loop_body self st hit)) as [Hnd Hmem];
      [by apply cache_tracks_seen_step|].
    assert (source_key hit.2 ∈ seen_sources st →
            is_Some (course_metadata_cache st !! hit_title hit.2)) as Hseen
      by (intros Hin; apply Hinv; by eexists).
    unfold loop_body_lookups.
    destruct (decide (source_key hit.2 ∈ seen_sources st)) as [Hin|Hin].
    + simpl. split; [done|]. intros title.
      rewrite Hmem, cache_step, elem_of_cons. destruct (Hseen Hin) as [m Hm].
      split; [tauto|]. intros [[->|?] ?]; [congruence|tauto].
    + destruct (course_metadata_cache st !! hit_title hit.2) as [m|] eqn:E.
      * simpl. split; [done|]. intros title.
        rewrite Hmem, cache_step, elem_of_cons.
        split; [tauto|]. intros [[->|?] Hnone]; [congruence|].
        split_and!; [done..|]. right. congruence.
      * simpl. split.
        -- constructor; [|done]. rewrite Hmem, cache_step. tauto.
        -- intros title. rewrite !elem_of_cons, Hmem, cache_step.
           destruct (decide (title = hit_title hit.2)) as [->|Hne]; tauto.
Qed.

(** X16: in one call the catalog is asked once for each distinct course
    title among the hits and for nothing else: later hits of a course
    reuse the entry of the per-call cache. *)
Theorem catalog_looked_up_once_per_title self hits :
  NoDup (catalog_lookups json_loads self hits) ∧
  ∀ title, title ∈ catalog_lookups json_loads self hits
           ↔ title ∈ hit_title <$> hits.*2.
Proof.
  destruct (lookups_from_spec self hits loop_start cache_tracks_seen_start)
    as [Hnd Hmem].
  split; [done|]. intros title. unfold catalog_lookups. rewrite Hmem.
  simpl. rewrite lookup_empty. tauto.
Qed.

Lemma foldl_seen self hits st :
  seen_sources (foldl (loop_body self) st hits)
  = list_to_set (source_key <$> hits.*2) ∪ seen_sources st.
Proof.
  revert st. induction hits as [|hit hits IH]; intros st; csimpl.
  - apply set_eq. intros k. rewrite elem_of_union, elem_of_empty. tauto.
  - rewrite IH, seen_step. apply set_eq. intros k.
    rewrite !elem_of_union. tauto.
Qed.

Lemma foldl_cache_tracks self hits st :
  cache_tracks_seen st → cache_tracks_seen (foldl (loop_body self) st hits).
Proof.
  revert st. induction hits as [|hit hits IH]; intros st Hinv; simpl; [done|].
  by apply IH, cache_tracks_seen_step.
Qed.

Lemma foldl_cache_ok self hits st :
  cache_ok json_loads self (course_metadata_cache st) →
  cache_ok json_loads self
    (course_metadata_cache (foldl (loop_body self) st hits)).
Proof.
  revert st. induction hits as [|hit hits IH]; intros st Hok; simpl; [done|].
  by apply IH, cache_ok_step.
Qed.

(** X17: when the loop ends, the set of seen keys is the set of the hits'
    keys, the per-call cache has an entry for exactly the titles of the
    hits, and each entry is what the catalog lookup of its title gives. *)
Theorem loop_end_state self hits :
  let st := run_loop self hits in
  seen_sources st = list_to_set (source_key <$> hits.*2) ∧
  (∀ title, is_Some (course_metadata_cache st !! title)
            ↔ title ∈ hit_title <$> hits.*2) ∧
  (∀ title course_meta,
     course_metadata_cache st !! title = Some course_meta →
     course_meta = _get_course_metadata json_loads self title).
Proof.
  unfold run_loop. simpl. split_and!.
  - rewrite foldl_seen. simpl. apply set_eq. intros k.
    rewrite elem_of_union, elem_of_empty. tauto.
  - intros title.
    rewrite (foldl_cache_tracks self hits loop_start cache_tracks_seen_start
               title).
    rewrite foldl_seen. simpl. split.
    + intros [n [Hin|Hin]%elem_of_union]; [|by apply elem_of_empty in Hin].
      apply elem_of_list_to_set, list_elem_of_fmap in Hin
        as (meta & [= -> ->] & Hin).
      apply list_elem_of_fmap. by exists meta.
    + intros (meta & -> & Hin)%list_elem_of_fmap.
      exists (meta_lesson_number meta). apply elem_of_union. left.
      apply elem_of_list_to_set, list_elem_of_fmap. by exists meta.
  - apply foldl_cache_ok, cache_ok_empty.
Qed.

(** *** Order and number of the sources *)

Lemma dedup_keys_sublist self metas seen :
  src_key <$> dedup_sources self seen metas `sublist_of` source_key <$> metas.
Proof.
  revert seen. induction metas as [|meta metas IH]; intros seen; csimpl.
  - constructor.
  - case_decide.
    + by apply sublist_cons.
    + csimpl. rewrite src_key_source_of. by apply sublist_skip.
Qed.

(** X18: the keys of the cached sources are a subsequence of the keys of
    the hits, so sources come in hit order; there are as many sources as
    distinct keys, at most as many as hits, and none only when there is
    no (document, metadata) pair. *)
Theorem sources_in_hit_order self results :
  let hits := zip (documents results) (metadata results) in
  let cached := last_sources (_format_results self results).2 in
  src_key <$> cached `sublist_of` source_key <$> hits.*2 ∧
  length cached
  = size (list_to_set (source_key <$> hits.*2) : gset (string * option Z)) ∧
  (length cached ≤ length hits)%nat ∧
  (cached = [] ↔ hits = []).
Proof.
  intros hits cached. subst cached. rewrite format_results_sources.
  fold hits.
  pose proof (dedup_keys_sublist self hits.*2 ∅) as Hsub.
  assert (length (dedup_sources self ∅ hits.*2)
          = size (list_to_set (source_key <$> hits.*2)
                    : gset (string * option Z))) as Hsize.
  { rewrite <- (length_fmap src_key).
    rewrite <- (size_list_to_set (C := gset (string * option Z)))
      by apply dedup_keys_NoDup.
    f_equal. apply set_eq. intros k.
    rewrite !elem_of_list_to_set, dedup_keys.
    split; [tauto|]. intros Hk. split; [done|]. apply not_elem_of_empty. }
  split_and!; [done|done| |].
  - apply sublist_length in Hsub. by rewrite !length_fmap in Hsub.
  - split.
    + intros Hnil. destruct hits as [|[doc meta] hits']; [done|].
      csimpl in Hnil. rewrite decide_False in Hnil by apply not_elem_of_empty.
      done.
    + by intros ->.
Qed.

Lemma snd_zip_take {A B : Type} (l : list A) (k : list B) :
  (zip l k).*2 = take (length l) k.
Proof.
  revert k. induction l as [|x l IH]; intros [|y k]; csimpl; [done..|].
  by rewrite IH.
Qed.

(** X19: the cached sources depend on the metadata only: result sets
    with the same metadata and as many documents, whatever their text,
    give the same source list. *)
Theorem sources_ignore_document_text self results results' :
  metadata results = metadata results' →
  length (documents results) = length (documents results') →
  last_sources (_format_results self results).2
  = last_sources (_format_results self results').2.
Proof.
  intros Hmeta Hlen. rewrite !format_results_sources, !snd_zip_take.
  by rewrite Hmeta, Hlen.
Qed.

(** *** Edge cases of execute *)

(** X20: a result set with documents but no metadata reaches formatting
    with no pair to format: the text is empty and the cache is replaced
    by the empty list. *)
Theorem documents_without_metadata self query course_name lesson_num :
  let results := search (store self) query course_name lesson_num in
  str_truthy (error results) = false →
  documents results ≠ [] →
  metadata results = [] →
  execute self query course_name lesson_num = ("", set_last_sources self []).
Proof.
  intros results Herr Hdocs Hmeta. rewrite execute_format; [|done|].
  - unfold _format_results, run_loop. fold results. rewrite Hmeta.
    by destruct (documents results).
  - fold results. unfold is_empty. by destruct (documents results).
Qed.

Lemma string_app_assoc (s1 s2 s3 : string) :
  (s1 +:+ s2) +:+ s3 = s1 +:+ s2 +:+ s3.
Proof.
  induction s1 as [|c s1 IH]; [done|].
  change (String c ((s1 +:+ s2) +:+ s3) = String c (s1 +:+ s2 +:+ s3)).
  by rewrite IH.
Qed.

(** X21: the message of the empty-result path names the course when
    course_name is a non-empty string and the lesson when lesson_number
    is an integer other than 0, in that order; an empty course_name and a
    lesson_number of 0 are passed over like absent ones. *)
Theorem empty_result_message self query course_name lesson_num :
  let results := search (store self) query course_name lesson_num in
  let course_part :=
    match course_name with
    | Some (String c s) => " in course '" +:+ String c s +:+ "'"
    | Some "" | None => ""
    end in
  let lesson_part :=
    match lesson_num with
    | Some n => if decide (n = 0) then "" else " in lesson " +:+ pretty n
    | None => ""
    end in
  str_truthy (error results) = false →
  is_empty results = true →
  execute self query course_name lesson_num
  = ("No relevant content found" +:+ course_part +:+ lesson_part +:+ ".",
     self).
Proof.
  intros results course_part lesson_part Herr Hemp. unfold execute.
  fold results. rewrite Herr, Hemp. subst course_part lesson_part.
  f_equal. f_equal.
  destruct course_name as [[|c s]|], lesson_num as [[|n|n]|]; simpl;
    rewrite ?string_app_assoc; reflexivity.
Qed.

(** X22: the text of a search does not depend on the cache: executing the
    search tool through a manager returns the same text before and after
    [reset_sources]. *)
Theorem reset_sources_keeps_search_text mgr key t kwargs :
  dict_get key (tools mgr) = Some (SearchTool t) →
  (execute_tool (reset_sources mgr) key kwargs).1
  = (execute_tool mgr key kwargs).1.
Proof.
  intros Hget. unfold execute_tool.
  rewrite dict_get_reset, Hget. simpl. unfold execute. simpl.
  destruct (str_truthy _); [done|]. by destruct (is_empty _).
Qed.

End FurtherProperties.

(** ** The claims on the example store *)

(** Three hits, two of them with the key of lesson 1: two sources. *)
Lemma C1_one_source_per_key_witness :
  let out := execute demo_json_loads demo_tool "What is MCP?" None None in
  str_truthy (error (demo_search "What is MCP?" None None)) = false ∧
  is_empty (demo_search "What is MCP?" None None) = false ∧
  NoDup (src_key <$> last_sources out.2) ∧
  src_key <$> last_sources out.2 = [(mcp_title, Some 1); (mcp_title, Some 2)] ∧
  length (hit_block <$> zip (documents (demo_search "What is MCP?" None None))
                            (metadata (demo_search "What is MCP?" None None)))
  = 3%nat.
Proof.
  pose proof (C1_one_source_per_key demo_json_loads demo_tool "What is MCP?"
                None None) as H.
  cbv zeta in H. destruct (H eq_refl eq_refl) as (Hnd & _ & _ & _ & Hlen).
  intros out.
  split_and!; [reflexivity | reflexivity | exact Hnd | reflexivity |].
  etrans; [exact Hlen | reflexivity].
Defined.

Lemma C2_blocks_joined_in_order_witness :
  (execute demo_json_loads demo_tool "broken catalog" None None).1
  = "[Broken - Lesson 3]" +:+ newline +:+ "First chunk." +:+ newline +:+
    newline +:+ "[unknown]" +:+ newline +:+ "Second chunk.".
Proof.
  pose proof (C2_blocks_joined_in_order demo_json_loads demo_tool
                "broken catalog" None None) as H.
  cbv zeta in H. destruct (H eq_refl eq_refl eq_refl) as (Htext & _).
  rewrite Htext. reflexivity.
Defined.

Lemma C3_error_returned_verbatim_witness :
  execute demo_json_loads stale_tool "timeout" None None
  = ("connection timeout", stale_tool).
Proof.
  apply (C3_error_returned_verbatim demo_json_loads stale_tool "timeout"
           None None "connection timeout"); [reflexivity | discriminate].
Defined.

(** C3, as stated, fails for an error field set to the empty string:
    Python takes it as false and the call goes on to the empty-result
    message. *)
Lemma C3_counterexample :
  error (search (store stale_tool) "blank error" None None) = Some "" ∧
  (execute demo_json_loads stale_tool "blank error" None None).1
  = "No relevant content found." ∧
  ¬ (∀ e, error (search (store stale_tool) "blank error" None None) = Some e →
          (execute demo_json_loads stale_tool "blank error" None None).1 = e).
Proof.
  split; [reflexivity|]. split; [reflexivity|].
  intros H. specialize (H "" eq_refl). discriminate H.
Qed.

(** C4: with no hit and lesson_number = 0 the lesson filter was supplied,
    yet the message does not mention it: [if lesson_number:] takes 0 as
    false. *)
Theorem C4_lesson_zero_not_mentioned :
  is_empty (search (store demo_tool) "xyz" None (Some 0)) = true ∧
  (execute demo_json_loads demo_tool "xyz" None (Some 0)).1
  = "No relevant content found." ∧
  (execute demo_json_loads demo_tool "xyz" None (Some 0)).1
  ≠ "No relevant content found in lesson 0.".
Proof. split; [reflexivity|]. split; [reflexivity|discriminate]. Qed.

Lemma C5_cache_replaced_only_when_formatting_witness :
  last_sources
    (execute demo_json_loads (set_last_sources demo_tool [stale_source])
       "ragged" None None).2
  = sources (run_loop demo_json_loads demo_tool
               (zip (documents (demo_search "ragged" None None))
                    (metadata (demo_search "ragged" None None)))) ∧
  last_sources (execute demo_json_loads stale_tool "timeout" None None).2
  = [stale_source].
Proof.
  split.
  - apply (C5_cache_replaced_only_when_formatting demo_json_loads demo_tool
             "ragged" None None); reflexivity.
  - apply (C5_cache_replaced_only_when_formatting demo_json_loads stale_tool
             "timeout" None None). left. reflexivity.
Defined.

(** C5, as stated, fails on the store-error path: the cache still holds
    the source of the earlier search, not the (empty) list of this call. *)
Lemma C5_counterexample :
  let results := search (store stale_tool) "timeout" None None in
  let out := execute demo_json_loads stale_tool "timeout" None None in
  sources (run_loop demo_json_loads stale_tool
             (zip (documents results) (metadata results))) = [] ∧
  last_sources out.2 = [stale_source] ∧
  last_sources out.2
  ≠ sources (run_loop demo_json_loads stale_tool
               (zip (documents results) (metadata results))).
Proof. split; [reflexivity|]. split; [reflexivity|discriminate]. Qed.

Lemma broken_lookup_fails : lookup_fails demo_json_loads demo_tool "Broken".
Proof.
  eapply lessons_unparsable; reflexivity.
Defined.

Lemma C6_failed_lookup_gives_null_fields_witness :
  let meta :=
    {| meta_course_title := Some "Broken"; meta_lesson_number := Some 3 |} in
  lookup_fails demo_json_loads demo_tool (hit_title meta) ∧
  bare_source meta
  ∈ last_sources
      (execute demo_json_loads demo_tool "broken catalog" None None).2.
Proof.
  intros meta. split; [exact broken_lookup_fails|].
  apply (C6_failed_lookup_gives_null_fields demo_json_loads demo_tool
           "broken catalog" None None "First chunk." meta);
    [reflexivity | reflexivity | apply elem_of_cons; by left
    | exact broken_lookup_fails].
Defined.

(** The example manager is what registering the two tools gives. *)
Lemma demo_manager_registered t :
  (mgr ← register_tool new_ToolManager outline_tool ;;;
   register_tool mgr (SearchTool t))
  = Returned (demo_manager t).
Proof. reflexivity. Qed.

Lemma demo_manager_keys t : NoDup (tools (demo_manager t)).*1.
Proof.
  apply NoDup_cons. split.
  - rewrite list_elem_of_singleton. discriminate.
  - apply NoDup_singleton.
Defined.

Lemma demo_manager_only_cache t :
  only_cache "search_course_content" (tools (demo_manager t)).
Proof.
  intros k tool Hin Hk. unfold demo_manager in Hin. simpl in Hin.
  apply elem_of_cons in Hin as [[= -> ->]|Hin]; [reflexivity|].
  apply list_elem_of_singleton in Hin as [= -> ->]. by destruct Hk.
Defined.

Lemma C7_manager_returns_cached_sources_witness :
  let after :=
    (execute_tool demo_json_loads (demo_manager stale_tool)
       "search_course_content" (demo_kwargs "What is MCP?")).2 in
  src_key <$> get_last_sources after
  = [(mcp_title, Some 1); (mcp_title, Some 2)].
Proof.
  pose proof (C7_manager_returns_cached_sources demo_json_loads
                (demo_manager stale_tool) "search_course_content" stale_tool
                (demo_kwargs "What is MCP?")) as H.
  cbv zeta in H.
  destruct (H (demo_manager_keys _) eq_refl (demo_manager_only_cache _)
              eq_refl eq_refl) as (_ & Hsrc & _).
  intros after. subst after. rewrite Hsrc. reflexivity.
Defined.

Lemma C8_same_inputs_same_outcome_witness :
  let first := execute demo_json_loads stale_tool "What is MCP?" None None in
  let second := execute demo_json_loads demo_tool "What is MCP?" None None in
  second.1 = first.1 ∧ last_sources second.2 = last_sources first.2.
Proof.
  intros first second.
  pose proof (C8_same_inputs_same_outcome demo_json_loads stale_tool demo_tool
                "What is MCP?" None None) as H.
  cbv zeta in H. destruct (H eq_refl (λ _, eq_refl)) as (Htext & Hfmt & _).
  split; [exact Htext | exact (Hfmt eq_refl eq_refl)].
Defined.

(** C8, as stated, fails on the store-error path: on one tool and one
    unchanged store, the call "timeout" made before and after a
    successful search leaves the empty list the first time and the two
    sources of that search the second time. *)
Lemma C8_counterexample :
  let first := execute demo_json_loads demo_tool "timeout" None None in
  let between := execute demo_json_loads first.2 "What is MCP?" None None in
  let second := execute demo_json_loads between.2 "timeout" None None in
  store between.2 = store demo_tool ∧
  second.1 = first.1 ∧
  last_sources first.2 = [] ∧
  length (last_sources second.2) = 2%nat ∧
  last_sources second.2 ≠ last_sources first.2.
Proof. split_and!; [reflexivity..|discriminate]. Qed.

Lemma C9_empty_result_keeps_cache_witness :
  get_last_sources
    (execute_tool demo_json_loads (demo_manager stale_tool)
       "search_course_content" (demo_kwargs "no such topic")).2
  = [stale_source].
Proof.
  pose proof (C9_empty_result_keeps_cache demo_json_loads
                (demo_manager stale_tool) "search_course_content" stale_tool
                (demo_kwargs "no such topic")) as H.
  cbv zeta in H. destruct (H eq_refl eq_refl eq_refl) as (_ & _ & _ & Hsrc).
  exact (Hsrc (demo_manager_keys _) (demo_manager_only_cache _)).
Defined.

(** Two documents, one metadata mapping: one block, one source. *)
Lemma C10_surplus_ignored_witness :
  let out := execute demo_json_loads demo_tool "ragged" None None in
  out.1 = "[MCP: Build Rich-Context AI Apps - Lesson 0]" +:+ newline +:+ "Kept."
  ∧ length (last_sources out.2) = 1%nat.
Proof.
  pose proof (C10_surplus_ignored demo_json_loads demo_tool "ragged"
                None None) as H.
  cbv zeta in H.
  assert (length (documents (search (store demo_tool) "ragged" None None))
          ≠ length (metadata (search (store demo_tool) "ragged" None None)))
    as Hlen by (simpl; discriminate).
  destruct (H Hlen) as (_ & _ & Hfmt).
  destruct (Hfmt eq_refl eq_refl) as (Htext & Hsrc & _).
  intros out. subst out. rewrite Htext, Hsrc. split; reflexivity.
Defined.

(** C10, as stated, fails when the surplus is on the metadata side and
    there is no document: nothing is formatted or cached; the call
    returns the not-found message and keeps the earlier cache. *)
Lemma C10_counterexample :
  let results := search (store lonely_tool) "anything" None None in
  let out := execute demo_json_loads lonely_tool "anything" None None in
  length (documents results) ≠ length (metadata results) ∧
  paired_prefix results = [] ∧
  out.1 = "No relevant content found." ∧
  out.1 ≠ join (newline +:+ newline) (hit_block <$> paired_prefix results) ∧
  last_sources out.2 = [stale_source] ∧
  last_sources out.2
  ≠ sources (run_loop demo_json_loads lonely_tool (paired_prefix results)).
Proof.
  split_and!; [simpl; discriminate | reflexivity | reflexivity | discriminate
              | reflexivity | discriminate].
Qed.

(** ** The further properties on the example store *)

Lemma register_tool_then_lookup_witness :
  ∃ n, name (get_tool_definition (notes_tool [])) = Some n ∧ n ≠ "" ∧
       dict_get n (tools (demo_manager_with_notes demo_tool))
       = Some (notes_tool []) ∧
       ∀ k, k ≠ n →
            dict_get k (tools (demo_manager_with_notes demo_tool))
            = dict_get k (tools (demo_manager demo_tool)).
Proof.
  apply (register_tool_then_lookup (demo_manager demo_tool) (notes_tool [])
           (demo_manager_with_notes demo_tool)).
  reflexivity.
Defined.

(** Registering the search tool again keeps its second place. *)
Lemma register_tool_overwrites_in_place_witness :
  (tools (demo_manager stale_tool)).*1 = (tools (demo_manager demo_tool)).*1 ∧
  length (tools (demo_manager stale_tool))
  = length (tools (demo_manager demo_tool)) ∧
  get_tool_definitions (demo_manager stale_tool)
  = <[1%nat := search_tool_definition]>
      (get_tool_definitions (demo_manager demo_tool)).
Proof.
  apply (register_tool_overwrites_in_place (demo_manager demo_tool)
           (SearchTool stale_tool) (demo_manager stale_tool)
           "search_course_content" 1%nat);
    [reflexivity | reflexivity | apply demo_manager_keys | reflexivity].
Defined.

Lemma register_tool_appends_new_name_witness :
  (tools (demo_manager_with_notes demo_tool)).*1
  = (tools (demo_manager demo_tool)).*1 ++ ["search_notes"] ∧
  get_tool_definitions (demo_manager_with_notes demo_tool)
  = get_tool_definitions (demo_manager demo_tool)
    ++ [get_tool_definition (notes_tool [])].
Proof.
  apply (register_tool_appends_new_name (demo_manager demo_tool)
           (notes_tool []) (demo_manager_with_notes demo_tool) "search_notes");
    [reflexivity | reflexivity |].
  simpl. rewrite !not_elem_of_cons. split_and!; [done..|apply not_elem_of_nil].
Defined.

Lemma execute_tool_unknown_name_witness :
  execute_tool demo_json_loads (demo_manager demo_tool) "translate"
    (demo_kwargs "What is MCP?")
  = ("Tool 'translate' not found", demo_manager demo_tool).
Proof.
  apply (execute_tool_unknown_name demo_json_loads (demo_manager demo_tool)
           "translate" (demo_kwargs "What is MCP?")).
  simpl. rewrite !not_elem_of_cons. split_and!; [done..|apply not_elem_of_nil].
Defined.

(** The outline tool has no cache and the notes tool an empty one: the
    manager answers with the cache of the search tool. *)
Lemma get_last_sources_first_nonempty_witness :
  get_last_sources three_tools = [stale_source].
Proof.
  apply (get_last_sources_first_nonempty three_tools
           [("get_course_outline", outline_tool);
            ("search_notes", notes_tool [])]
           "search_course_content" (SearchTool stale_tool) [] stale_source []);
    [reflexivity | | reflexivity].
  intros entry [->|[->|Hin]%elem_of_cons]%elem_of_cons;
    [by left | by right | by apply elem_of_nil in Hin].
Defined.

(** Two lessons are numbered 1: the first of them is returned. *)
Lemma lesson_info_first_match_witness :
  les_lesson_title (_get_lesson_info demo_meta 1) = Some "First".
Proof.
  rewrite (lesson_info_first_match demo_meta 1
             [ {| les_lesson_number := Some 0;
                  les_lesson_title := Some "Welcome";
                  les_lesson_link := Some "https://example.com/0" |} ]
             {| les_lesson_number := Some 1; les_lesson_title := Some "First";
                les_lesson_link := None |}
             [ {| les_lesson_number := Some 1;
                  les_lesson_title := Some "Again";
                  les_lesson_link := None |} ]);
    [reflexivity | reflexivity | | reflexivity].
  intros l [->|Hin]%elem_of_cons; [discriminate | by apply elem_of_nil in Hin].
Defined.

Lemma found_course_gives_catalog_fields_witness :
  ∃ s, s ∈ last_sources
             (execute demo_json_loads demo_tool "What is MCP?" None None).2 ∧
       src_key s = (mcp_title, Some 2) ∧
       course_link s = Some "https://example.com/mcp" ∧
       instructor s = Some "Elie".
Proof.
  pose proof (found_course_gives_catalog_fields demo_json_loads demo_tool
                "What is MCP?" None None "Servers expose tools." (mcp_hit 2)
                mcp_entry []) as H.
  cbv zeta in H. apply H; [reflexivity | reflexivity | | reflexivity |].
  - apply elem_of_cons. right. apply elem_of_cons. by left.
  - right. eexists _, _. split; reflexivity.
Defined.

Lemma sources_ignore_document_text_witness :
  last_sources
    (_format_results demo_json_loads demo_tool (two_chunks "One." "Two.")).2
  = last_sources
      (_format_results demo_json_loads demo_tool
         (two_chunks "Other text." "")).2.
Proof.
  apply (sources_ignore_document_text demo_json_loads demo_tool
           (two_chunks "One." "Two.") (two_chunks "Other text." ""));
    reflexivity.
Defined.

Lemma documents_without_metadata_witness :
  execute demo_json_loads orphan_tool "anything" None None
  = ("", set_last_sources orphan_tool []).
Proof.
  apply (documents_without_metadata demo_json_loads orphan_tool "anything"
           None None); [reflexivity | discriminate | reflexivity].
Defined.

Lemma empty_result_message_witness :
  execute demo_json_loads demo_tool "xyz" (Some "Nonexistent") (Some 3)
  = ("No relevant content found in course 'Nonexistent' in lesson 3.",
     demo_tool) ∧
  execute demo_json_loads demo_tool "xyz" (Some "") (Some 0)
  = ("No relevant content found.", demo_tool).
Proof.
  split.
  - apply (empty_result_message demo_json_loads demo_tool "xyz"
             (Some "Nonexistent") (Some 3)); reflexivity.
  - apply (empty_result_message demo_json_loads demo_tool "xyz"
             (Some "") (Some 0)); reflexivity.
Defined.

Lemma reset_sources_keeps_search_text_witness :
  (execute_tool demo_json_loads (reset_sources (demo_manager stale_tool))
     "search_course_content" (demo_kwargs "timeout")).1
  = (execute_tool demo_json_loads (demo_manager stale_tool)
       "search_course_content" (demo_kwargs "timeout")).1.
Proof.
  apply (reset_sources_keeps_search_text demo_json_loads
           (demo_manager stale_tool) "search_course_content" stale_tool).
  reflexivity.
Defined.
